(** * Percent-progress watch face: calendar arithmetic, progress value,
      settings navigator and persistence

    A shallow embedding of [watch-faces/complication/progress_face.c] and
    [progress_face.h].  C integers are modelled as [Z] with the conversions
    of the C types written out; bit-field stores truncate to the width of
    the field; the host services the face calls (clock, button level,
    days-in-month, byte store, tick frequency) are explicit inputs or parts
    of an explicit host record.  Calls that only drive the display are left
    out: they neither read nor write [progress_state_t]. *)

From Stdlib Require Import ZArith Lia Bool List String Ascii.
From stdpp Require Import base option gmap strings.
Import ListNotations.

Local Open Scope Z_scope.

(* ===================================================================== *)
(** ** C integer types *)
(* ===================================================================== *)

Module CInt.

(** Conversion to [uint64_t]: reduction modulo 2^64. *)
Definition u64 (x : Z) : Z := x mod 2 ^ 64.

(** Conversion of a [uint64_t] to [int64_t] (two's complement). *)
Definition to_int64 (x : Z) : Z :=
  let r := x mod 2 ^ 64 in
  if r <? 2 ^ 63 then r else r - 2 ^ 64.

(** Conversion to [uint16_t] and [uint8_t]. *)
Definition u16 (x : Z) : Z := x mod 2 ^ 16.
Definition u8 (x : Z) : Z := x mod 2 ^ 8.

(** Store into an unsigned bit-field of [w] bits. *)
Definition bits (w : Z) (x : Z) : Z := x mod 2 ^ w.

(** [uint64_t] arithmetic wraps around. *)
Definition u64_add (a b : Z) : Z := u64 (a + b).
Definition u64_sub (a b : Z) : Z := u64 (a - b).
Definition u64_mul (a b : Z) : Z := u64 (a * b).
(** Unsigned division; only used with a non-zero divisor. *)
Definition u64_div (a b : Z) : Z := Z.quot a b.

(** Range of the C [int] on the targets of the firmware (32 bits). *)
Definition in_int (x : Z) : Prop := - 2 ^ 31 <= x < 2 ^ 31.

End CInt.
Import CInt.

(* ===================================================================== *)
(** ** Data model ([progress_face.h]) *)
(* ===================================================================== *)

Inductive progress_page_t : Set :=
| PROGRESS_PAGE_DISPLAY
| PROGRESS_PAGE_START
| PROGRESS_PAGE_END.

Inductive progress_setting_subpage_t : Set :=
| PROGRESS_SUBPAGE_YEAR
| PROGRESS_SUBPAGE_MONTH
| PROGRESS_SUBPAGE_DAY
| PROGRESS_SUBPAGE_HOUR
| PROGRESS_SUBPAGE_MINUTE.

(** The [bit] view of [progress_datetime_t]:
    year : 12, month : 4, day : 5, hour : 5, minute : 6. *)
Record progress_datetime_t : Set := mk_datetime {
  bit_year : Z;
  bit_month : Z;
  bit_day : Z;
  bit_hour : Z;
  bit_minute : Z
}.

Record progress_dates_t : Set := mk_dates {
  start_datetime : progress_datetime_t;
  end_datetime : progress_datetime_t
}.

Record progress_state_t : Set := mk_state {
  current_page : progress_page_t;
  current_subpage : progress_setting_subpage_t;
  face_index : Z;
  dates : progress_dates_t;
  dates_changed : bool;
  quick_cycle : bool
}.

(** What the widths of the bit-fields guarantee of a value of the type. *)
Definition datetime_in_range (dt : progress_datetime_t) : Prop :=
  0 <= bit_year dt < 4096 /\ 0 <= bit_month dt < 16 /\
  0 <= bit_day dt < 32 /\ 0 <= bit_hour dt < 32 /\ 0 <= bit_minute dt < 64.

(** Assignments to single bit-fields. *)
Definition set_year (dt : progress_datetime_t) (v : Z) : progress_datetime_t :=
  mk_datetime (bits 12 v) (bit_month dt) (bit_day dt) (bit_hour dt) (bit_minute dt).
Definition set_month (dt : progress_datetime_t) (v : Z) : progress_datetime_t :=
  mk_datetime (bit_year dt) (bits 4 v) (bit_day dt) (bit_hour dt) (bit_minute dt).
Definition set_day (dt : progress_datetime_t) (v : Z) : progress_datetime_t :=
  mk_datetime (bit_year dt) (bit_month dt) (bits 5 v) (bit_hour dt) (bit_minute dt).
Definition set_hour (dt : progress_datetime_t) (v : Z) : progress_datetime_t :=
  mk_datetime (bit_year dt) (bit_month dt) (bit_day dt) (bits 5 v) (bit_minute dt).
Definition set_minute (dt : progress_datetime_t) (v : Z) : progress_datetime_t :=
  mk_datetime (bit_year dt) (bit_month dt) (bit_day dt) (bit_hour dt) (bits 6 v).

(* ===================================================================== *)
(** ** Calendar arithmetic *)
(* ===================================================================== *)

(** The Julian Day Number expression of [_progress_datetime_to_minutes],
    evaluated in C [int] arithmetic ([/] truncates toward zero). *)
Definition julian_day_int (dt : progress_datetime_t) : Z :=
  let year := bit_year dt in
  let month := bit_month dt in
  let day := bit_day dt in
  (1461 * (year + 4800 + (month - 14) ÷ 12)) ÷ 4
  + (367 * (month - 2 - 12 * ((month - 14) ÷ 12))) ÷ 12
  - (3 * ((year + 4900 + (month - 14) ÷ 12) ÷ 100)) ÷ 4
  + day - 32075.

Definition _progress_datetime_to_minutes (dt : progress_datetime_t) : Z :=
  let julian_day := u64 (julian_day_int dt) in
  u64_add (u64_add (u64_mul (u64_mul julian_day 24) 60)
                   (u64 (bit_hour dt * 60)))
          (u64 (bit_minute dt)).

Definition _progress_datetime_compare (dt1 dt2 : progress_datetime_t) : Z :=
  to_int64 (_progress_datetime_to_minutes dt2)
  - to_int64 (_progress_datetime_to_minutes dt1).

(** Validation of the end date: [end := start] when the end is before
    the start. *)
Definition _progress_face_validate_end_datetime
    (state : progress_state_t) : progress_state_t :=
  if _progress_datetime_compare (start_datetime (dates state))
                                (end_datetime (dates state)) <? 0
  then mk_state (current_page state) (current_subpage state) (face_index state)
                (mk_dates (start_datetime (dates state))
                          (start_datetime (dates state)))
                true (quick_cycle state)
  else state.

(** The date the current page edits; the C function returns a pointer into
    the state, which is modelled by this read and the write below. *)
Definition _progress_face_get_active_datetime
    (state : progress_state_t) : progress_datetime_t :=
  match current_page state with
  | PROGRESS_PAGE_START => start_datetime (dates state)
  | _ => end_datetime (dates state)
  end.

Definition set_active_datetime
    (state : progress_state_t) (dt : progress_datetime_t) : progress_state_t :=
  mk_state (current_page state) (current_subpage state) (face_index state)
           (match current_page state with
            | PROGRESS_PAGE_START => mk_dates dt (end_datetime (dates state))
            | _ => mk_dates (start_datetime (dates state)) dt
            end)
           (dates_changed state) (quick_cycle state).

Definition set_dates_changed
    (state : progress_state_t) (b : bool) : progress_state_t :=
  mk_state (current_page state) (current_subpage state) (face_index state)
           (dates state) b (quick_cycle state).

Definition set_quick_cycle
    (state : progress_state_t) (b : bool) : progress_state_t :=
  mk_state (current_page state) (current_subpage state) (face_index state)
           (dates state) (dates_changed state) b.

Definition set_page (state : progress_state_t)
    (p : progress_page_t) (sp : progress_setting_subpage_t) : progress_state_t :=
  mk_state p sp (face_index state) (dates state)
           (dates_changed state) (quick_cycle state).

Definition set_dates
    (state : progress_state_t) (d : progress_dates_t) : progress_state_t :=
  mk_state (current_page state) (current_subpage state) (face_index state)
           d (dates_changed state) (quick_cycle state).

(* ===================================================================== *)
(** ** The host *)
(* ===================================================================== *)

(** Modelled from the spec: the value of [getCurrentLocalDateTime()], a
    calendar value whose year is an offset from a fixed reference year
    ([watch_date_time_t], declared in the host's headers). *)
Record watch_date_time_t : Set := mk_watch_date_time {
  unit_year : Z;
  unit_month : Z;
  unit_day : Z;
  unit_hour : Z;
  unit_minute : Z;
  unit_second : Z
}.

(** What the host's headers fix and this file's sources only use: the
    reference year of the clock and the days-in-month service. *)
Class Host : Type := {
  WATCH_RTC_REFERENCE_YEAR : Z;
  watch_utility_days_in_month : Z -> Z -> Z
}.

(** What the face reads from the host while it handles one event:
    [movement_get_local_date_time()] and [HAL_GPIO_BTN_ALARM_read()]. *)
Record host_inputs : Set := mk_inputs {
  movement_get_local_date_time : watch_date_time_t;
  HAL_GPIO_BTN_ALARM_read : bool
}.

(** A stored file either yields a date range when read or fails to. *)
Inductive stored_file : Set :=
| Unreadable
| Stored (d : progress_dates_t).

(** The part of the host the face changes: the byte store (with a count of
    the write calls issued to it) and the requested tick frequency; and
    what decides the fate of a write: [write_succeeds h n] tells whether
    the write call number [n] (counted from 0) stores its record. *)
Record host_state : Type := mk_host {
  files : gmap string stored_file;
  write_calls : nat;
  tick_frequency : Z;
  write_succeeds : nat -> bool
}.

(** Modelled from the spec: [fileExists(name) -> bool]. *)
Definition filesystem_file_exists (h : host_state) (filename : string) : bool :=
  match files h !! filename with
  | Some _ => true
  | None => false
  end.

(** Modelled from the spec: [readFile(name, buffer, size) -> bool]; the
    buffer is returned when the read succeeds. *)
Definition filesystem_read_file
    (h : host_state) (filename : string) : option progress_dates_t :=
  match files h !! filename with
  | Some (Stored d) => Some d
  | _ => None
  end.

(** Modelled from the spec: [writeFile(name, buffer, size)], whose failure
    is silently accepted: a write that succeeds stores the record under the
    name, a write that fails leaves the files as they were; the face sees
    no result either way. *)
Definition filesystem_write_file
    (h : host_state) (filename : string) (d : progress_dates_t) : host_state :=
  mk_host (if write_succeeds h (write_calls h)
           then <[filename := Stored d]> (files h)
           else files h)
          (S (write_calls h)) (tick_frequency h) (write_succeeds h).

(** Modelled from the spec: [requestSamplingRate(hz)]. *)
Definition movement_request_tick_frequency
    (h : host_state) (freq : Z) : host_state :=
  mk_host (files h) (write_calls h) freq (write_succeeds h).

(** [memcmp(a, b, sizeof(progress_dates_t)) == 0] on two date ranges. *)
Definition datetime_eqb (a b : progress_datetime_t) : bool :=
  (bit_year a =? bit_year b) && (bit_month a =? bit_month b) &&
  (bit_day a =? bit_day b) && (bit_hour a =? bit_hour b) &&
  (bit_minute a =? bit_minute b).

Definition memcmp_dates_equal (a b : progress_dates_t) : bool :=
  datetime_eqb (start_datetime a) (start_datetime b) &&
  datetime_eqb (end_datetime a) (end_datetime b).

(** [sprintf(filename, "prog%03d.u64", state->face_index)]. *)
Definition digit_char (d : Z) : ascii := ascii_of_nat (Z.to_nat (48 + d)).

Definition format_03d (n : Z) : string :=
  String (digit_char ((n ÷ 100) mod 10))
    (String (digit_char ((n ÷ 10) mod 10))
       (String (digit_char (n mod 10)) EmptyString)).

Definition dates_filename (index : Z) : string :=
  String.append "prog" (String.append (format_03d index) ".u64").

(* ===================================================================== *)
(** ** The face ([progress_face.c]) *)
(* ===================================================================== *)

(** C's [%]: remainder of the truncating division, undefined for a zero
    divisor. *)
Definition c_rem (a b : Z) : option Z :=
  if b =? 0 then None else Some (Z.rem a b).

(** Which assignment of [percentage_x10000] is executed. *)
Inductive progress_branch : Set :=
| BranchNotStarted    (* current_minutes <= start_minutes *)
| BranchFinished      (* current_minutes >= end_minutes *)
| BranchInterior      (* progress / duration *)
| BranchZeroDuration. (* the else of [duration > 0] *)

(** The assignment of [percentage_x10000] in
    [_progress_face_update_display], from the three [uint64_t] minute
    counts, with the branch that made it. *)
Definition percentage_of_minutes
    (start_minutes end_minutes current_minutes : Z) : progress_branch * Z :=
  if current_minutes <=? start_minutes then (BranchNotStarted, 0)
  else if current_minutes >=? end_minutes then (BranchFinished, 1000000)
  else
    let progress := u64_mul (u64_sub current_minutes start_minutes) 1000000 in
    let duration := u64_sub end_minutes start_minutes in
    if duration >? 0 then (BranchInterior, u64_div progress duration)
    else (BranchZeroDuration, 1000000).

Section Face.

Context `{Host}.

(** [now.unit.year + WATCH_RTC_REFERENCE_YEAR] stored in a [uint16_t]. *)
Definition current_year_of (now : watch_date_time_t) : Z :=
  u16 (unit_year now + WATCH_RTC_REFERENCE_YEAR).

(** The [switch] of [_progress_face_increment_current] on the subpage,
    applied to the active date. *)
Definition increment_field
    (subpage : progress_setting_subpage_t) (now : watch_date_time_t)
    (active_dt : progress_datetime_t) : option progress_datetime_t :=
  match subpage with
  | PROGRESS_SUBPAGE_YEAR =>
      let dt := set_year active_dt (bit_year active_dt + 1) in
      let current_year := current_year_of now in
      if bit_year dt >? current_year + 100
      then Some (set_year dt (current_year - 100))
      else Some dt
  | PROGRESS_SUBPAGE_MONTH =>
      Some (set_month active_dt (Z.rem (bit_month active_dt) 12 + 1))
  | PROGRESS_SUBPAGE_DAY =>
      r ← c_rem (bit_day active_dt)
                (watch_utility_days_in_month (bit_month active_dt)
                                             (bit_year active_dt));
      Some (set_day active_dt (r + 1))
  | PROGRESS_SUBPAGE_HOUR =>
      Some (set_hour active_dt (Z.rem (bit_hour active_dt + 1) 24))
  | PROGRESS_SUBPAGE_MINUTE =>
      Some (set_minute active_dt (Z.rem (bit_minute active_dt + 1) 60))
  end.

(** [None] stands for the undefined remainder by zero. *)
Definition _progress_face_increment_current
    (state : progress_state_t) (now : watch_date_time_t)
    : option progress_state_t :=
  let state := set_dates_changed state true in
  active_dt ← increment_field (current_subpage state) now
                              (_progress_face_get_active_datetime state);
  let state := set_active_datetime state active_dt in
  match current_page state with
  | PROGRESS_PAGE_END => Some (_progress_face_validate_end_datetime state)
  | _ => Some state
  end.

(** The conversion of the current time to [progress_datetime_t] at the
    head of [_progress_face_update_display]. *)
Definition current_dt_of (current_time : watch_date_time_t)
    : progress_datetime_t :=
  mk_datetime (bits 12 (unit_year current_time + WATCH_RTC_REFERENCE_YEAR))
              (bits 4 (unit_month current_time))
              (bits 5 (unit_day current_time))
              (bits 5 (unit_hour current_time))
              (bits 6 (unit_minute current_time)).

(** The value [percentage_x10000] that [_progress_face_update_display]
    computes and then hands to the display driver. *)
Definition _progress_face_update_display
    (state : progress_state_t) (current_time : watch_date_time_t) : Z :=
  let current_dt := current_dt_of current_time in
  let start_minutes :=
    _progress_datetime_to_minutes (start_datetime (dates state)) in
  let end_minutes :=
    _progress_datetime_to_minutes (end_datetime (dates state)) in
  let current_minutes := _progress_datetime_to_minutes current_dt in
  snd (percentage_of_minutes start_minutes end_minutes current_minutes).

(** The branch taken by the same computation. *)
Definition update_display_branch
    (state : progress_state_t) (current_time : watch_date_time_t)
    : progress_branch :=
  fst (percentage_of_minutes
         (_progress_datetime_to_minutes (start_datetime (dates state)))
         (_progress_datetime_to_minutes (end_datetime (dates state)))
         (_progress_datetime_to_minutes (current_dt_of current_time))).

(** Returns the state and whether the dates were read from the store. *)
Definition _progress_face_load_dates
    (state : progress_state_t) (now : watch_date_time_t) (h : host_state)
    : progress_state_t * bool :=
  let filename := dates_filename (face_index state) in
  match (if filesystem_file_exists h filename
         then filesystem_read_file h filename else None) with
  | Some d => (set_dates state d, true)
  | None =>
      let current_year := current_year_of now in
      let start :=
        set_minute (set_hour (set_day (set_month
          (set_year (start_datetime (dates state)) current_year) 1) 1) 0) 0 in
      let end_ :=
        set_minute (set_hour (set_day (set_month
          (set_year (end_datetime (dates state)) current_year) 12) 31) 23) 59 in
      (set_dates state (mk_dates start end_), false)
  end.

Definition _progress_face_persist_dates
    (state : progress_state_t) (h : host_state)
    : progress_state_t * host_state :=
  let filename := dates_filename (face_index state) in
  let needs_write :=
    if filesystem_file_exists h filename then
      match filesystem_read_file h filename with
      | Some old_dates =>
          if memcmp_dates_equal old_dates (dates state) then false else true
      | None => true
      end
    else true in
  let h := if needs_write
           then filesystem_write_file h filename (dates state) else h in
  (set_dates_changed state false, h).

Definition _progress_face_abort_quick_cycle
    (state : progress_state_t) (h : host_state)
    : progress_state_t * host_state :=
  if quick_cycle state
  then (set_quick_cycle state false, movement_request_tick_frequency h 4)
  else (state, h).

(** The freshly allocated state, filled with zero bytes by [memset]. *)
Definition zeroed_state : progress_state_t :=
  mk_state PROGRESS_PAGE_DISPLAY PROGRESS_SUBPAGE_YEAR 0
           (mk_dates (mk_datetime 0 0 0 0 0) (mk_datetime 0 0 0 0 0))
           false false.

(** [context] is [*context_ptr] ([None] for [NULL]); the static counter
    [progress_instances] is passed in and returned.  The argument
    [watch_face_index] is ignored, as in the source. *)
Definition progress_face_setup
    (watch_face_index : Z) (context : option progress_state_t)
    (progress_instances : Z) (now : watch_date_time_t) (h : host_state)
    : progress_state_t * Z :=
  match context with
  | Some state => (state, progress_instances)
  | None =>
      let state :=
        mk_state (current_page zeroed_state) (current_subpage zeroed_state)
                 (u8 progress_instances) (dates zeroed_state)
                 (dates_changed zeroed_state) (quick_cycle zeroed_state) in
      let '(state, dates_initialized) :=
        _progress_face_load_dates state now h in
      let state :=
        if negb dates_initialized
        then set_page state PROGRESS_PAGE_START PROGRESS_SUBPAGE_YEAR
        else set_page state PROGRESS_PAGE_DISPLAY PROGRESS_SUBPAGE_YEAR in
      (set_quick_cycle (set_dates_changed state false) false,
       progress_instances + 1)
  end.

Definition progress_face_activate
    (state : progress_state_t) (h : host_state) : host_state :=
  match current_page state with
  | PROGRESS_PAGE_DISPLAY => movement_request_tick_frequency h 1
  | _ => movement_request_tick_frequency h 4
  end.

Definition progress_face_resign
    (state : progress_state_t) (h : host_state)
    : progress_state_t * host_state :=
  if dates_changed state then _progress_face_persist_dates state h
  else (state, h).

End Face.

(** The event kinds [progress_face_loop] distinguishes; [EVENT_OTHER]
    stands for every kind that reaches its [default] label. *)
Inductive movement_event_type_t : Set :=
| EVENT_ACTIVATE
| EVENT_LOW_ENERGY_UPDATE
| EVENT_TICK
| EVENT_LIGHT_BUTTON_DOWN
| EVENT_LIGHT_BUTTON_UP
| EVENT_ALARM_BUTTON_UP
| EVENT_ALARM_LONG_PRESS
| EVENT_ALARM_LONG_UP
| EVENT_TIMEOUT
| EVENT_OTHER.

Definition subpage_to_Z (sp : progress_setting_subpage_t) : Z :=
  match sp with
  | PROGRESS_SUBPAGE_YEAR => 0
  | PROGRESS_SUBPAGE_MONTH => 1
  | PROGRESS_SUBPAGE_DAY => 2
  | PROGRESS_SUBPAGE_HOUR => 3
  | PROGRESS_SUBPAGE_MINUTE => 4
  end.

(** The enumerator of a value in 0..4 (the only values the face stores). *)
Definition subpage_of_Z (z : Z) : progress_setting_subpage_t :=
  match z with
  | 0 => PROGRESS_SUBPAGE_YEAR
  | 1 => PROGRESS_SUBPAGE_MONTH
  | 2 => PROGRESS_SUBPAGE_DAY
  | 3 => PROGRESS_SUBPAGE_HOUR
  | _ => PROGRESS_SUBPAGE_MINUTE
  end.

Section Loop.

Context `{Host}.

(** One call of [progress_face_loop]: the state and the host after the
    event ([None]: the call ran into the undefined remainder).  The C
    function always returns [true]. *)
Definition progress_face_loop
    (event_type : movement_event_type_t) (inputs : host_inputs)
    (state : progress_state_t) (h : host_state)
    : option (progress_state_t * host_state) :=
  match event_type with
  | EVENT_ACTIVATE => Some (state, h)
  | EVENT_LOW_ENERGY_UPDATE | EVENT_TICK =>
      if quick_cycle state then
        if HAL_GPIO_BTN_ALARM_read inputs then
          state ← _progress_face_increment_current state
                    (movement_get_local_date_time inputs);
          Some (state, h)
        else Some (_progress_face_abort_quick_cycle state h)
      else Some (state, h)
  | EVENT_LIGHT_BUTTON_DOWN => Some (state, h)
  | EVENT_LIGHT_BUTTON_UP =>
      match current_page state with
      | PROGRESS_PAGE_START | PROGRESS_PAGE_END =>
          let subpage :=
            subpage_of_Z (Z.rem (subpage_to_Z (current_subpage state) + 1) 5) in
          let state := set_page state (current_page state) subpage in
          match subpage with
          | PROGRESS_SUBPAGE_YEAR =>
              match current_page state with
              | PROGRESS_PAGE_START =>
                  let state := set_page state PROGRESS_PAGE_END subpage in
                  Some (_progress_face_validate_end_datetime state, h)
              | _ =>
                  let state := set_page state PROGRESS_PAGE_DISPLAY subpage in
                  let '(state, h) := _progress_face_persist_dates state h in
                  Some (state, movement_request_tick_frequency h 1)
              end
          | _ => Some (state, h)
          end
      | PROGRESS_PAGE_DISPLAY => Some (state, h)
      end
  | EVENT_ALARM_BUTTON_UP =>
      match current_page state with
      | PROGRESS_PAGE_START | PROGRESS_PAGE_END =>
          let '(state, h) := _progress_face_abort_quick_cycle state h in
          state ← _progress_face_increment_current state
                    (movement_get_local_date_time inputs);
          Some (state, h)
      | PROGRESS_PAGE_DISPLAY => Some (state, h)
      end
  | EVENT_ALARM_LONG_PRESS =>
      match current_page state with
      | PROGRESS_PAGE_DISPLAY =>
          Some (set_page state PROGRESS_PAGE_START PROGRESS_SUBPAGE_YEAR,
                movement_request_tick_frequency h 4)
      | PROGRESS_PAGE_START | PROGRESS_PAGE_END =>
          Some (set_quick_cycle state true,
                movement_request_tick_frequency h 8)
      end
  | EVENT_ALARM_LONG_UP => Some (_progress_face_abort_quick_cycle state h)
  | EVENT_TIMEOUT => Some (_progress_face_abort_quick_cycle state h)
  | EVENT_OTHER => Some (state, h)
  end.

(** A run of the loop over a list of events, each with the inputs the
    host shows during it. *)
Fixpoint run_events
    (events : list (movement_event_type_t * host_inputs))
    (state : progress_state_t) (h : host_state)
    : option (progress_state_t * host_state) :=
  match events with
  | [] => Some (state, h)
  | (e, i) :: rest =>
      '(state, h) ← progress_face_loop e i state h;
      run_events rest state h
  end.

End Loop.

(* ===================================================================== *)
(** ** Reference definitions *)
(* ===================================================================== *)

(** [linearMinutes] as the design states it, over the unbounded integers:
    the Julian Day Number times 1440, plus the minutes of the day. *)
Definition linearMinutes (dt : progress_datetime_t) : Z :=
  julian_day_int dt * 1440 + bit_hour dt * 60 + bit_minute dt.

(** [computeProgressFixedPoint] as the design states it, piecewise and
    with the floor of the exact quotient. *)
Definition computeProgressFixedPoint (start end_ now : progress_datetime_t) : Z :=
  if linearMinutes now <=? linearMinutes start then 0
  else if linearMinutes now >=? linearMinutes end_ then 1000000
  else ((linearMinutes now - linearMinutes start) * 1000000)
       / (linearMinutes end_ - linearMinutes start).

(** The Gregorian calendar. *)
Definition is_leap_year (y : Z) : bool :=
  (y mod 4 =? 0) && (negb (y mod 100 =? 0) || (y mod 400 =? 0)).

Definition leap_day (y : Z) : Z := if is_leap_year y then 1 else 0.

Definition gregorian_days_in_month (m y : Z) : Z :=
  match m with
  | 1 | 3 | 5 | 7 | 8 | 10 | 12 => 31
  | 4 | 6 | 9 | 11 => 30
  | 2 => 28 + leap_day y
  | _ => 0
  end.

(** Days of the year [y] that lie before the first of month [m]. *)
Definition days_before_month (m y : Z) : Z :=
  match m with
  | 1 => 0
  | 2 => 31
  | 3 => 59 + leap_day y
  | 4 => 90 + leap_day y
  | 5 => 120 + leap_day y
  | 6 => 151 + leap_day y
  | 7 => 181 + leap_day y
  | 8 => 212 + leap_day y
  | 9 => 243 + leap_day y
  | 10 => 273 + leap_day y
  | 11 => 304 + leap_day y
  | _ => 334 + leap_day y
  end.

(** The day number of the eve of January 1 of year [y]. *)
Definition year_base (y : Z) : Z := julian_day_int (mk_datetime y 1 0 0 0).

(** A calendar value that names a minute of the Gregorian calendar. *)
Definition valid_calendar (dt : progress_datetime_t) : Prop :=
  0 <= bit_year dt < 4096 /\ 1 <= bit_month dt <= 12 /\
  1 <= bit_day dt <= gregorian_days_in_month (bit_month dt) (bit_year dt) /\
  0 <= bit_hour dt < 24 /\ 0 <= bit_minute dt < 60.

(** Chronological order of calendar values: lexicographic on
    year, month, day, hour, minute. *)
Definition calendar_before (a b : progress_datetime_t) : Prop :=
  bit_year a < bit_year b \/
  (bit_year a = bit_year b /\
   (bit_month a < bit_month b \/
    (bit_month a = bit_month b /\
     (bit_day a < bit_day b \/
      (bit_day a = bit_day b /\
       (bit_hour a < bit_hour b \/
        (bit_hour a = bit_hour b /\ bit_minute a < bit_minute b))))))).

(** The ordering invariant of a date range. *)
Definition end_not_before_start (d : progress_dates_t) : Prop :=
  _progress_datetime_to_minutes (start_datetime d)
  <= _progress_datetime_to_minutes (end_datetime d).

Definition dates_in_range (d : progress_dates_t) : Prop :=
  datetime_in_range (start_datetime d) /\ datetime_in_range (end_datetime d).

(** A host with the reference year 2020 and the Gregorian month lengths,
    used to run the face on concrete inputs. *)
Definition reference_host : Host :=
  {| WATCH_RTC_REFERENCE_YEAR := 2020;
     watch_utility_days_in_month := gregorian_days_in_month |}.

(** An empty store whose writes succeed, and one whose writes fail. *)
Definition empty_host_state : host_state := mk_host ∅ 0 1 (fun _ => true).

Definition failing_host_state : host_state := mk_host ∅ 0 1 (fun _ => false).

(* ===================================================================== *)
(** ** Sample states and inputs *)
(* ===================================================================== *)

Definition scenario_range : progress_dates_t :=
  mk_dates (mk_datetime 2025 1 1 0 0) (mk_datetime 2025 12 31 23 59).

Definition scenario_state : progress_state_t :=
  mk_state PROGRESS_PAGE_DISPLAY PROGRESS_SUBPAGE_YEAR 0 scenario_range false false.

Definition scenario_now : watch_date_time_t := mk_watch_date_time 5 7 2 12 0 0.

Definition scenario_later : watch_date_time_t := mk_watch_date_time 5 9 1 0 0 0.

(** The ordering invariant of the navigator: dates fit their bit-fields,
    and on the end page the end is not before the start. *)
Definition navigator_ordered (state : progress_state_t) : Prop :=
  dates_in_range (dates state) /\
  (current_page state = PROGRESS_PAGE_END -> end_not_before_start (dates state)).

Definition first_run_state : progress_state_t :=
  mk_state PROGRESS_PAGE_START PROGRESS_SUBPAGE_YEAR 0 scenario_range false false.

Definition end_page_state : progress_state_t :=
  mk_state PROGRESS_PAGE_END PROGRESS_SUBPAGE_MONTH 0
    (mk_dates (mk_datetime 2025 12 1 0 0) (mk_datetime 2025 12 31 23 59))
    false false.

Definition button_held : host_inputs := mk_inputs scenario_now true.

Definition stored_host : host_state :=
  mk_host (<["prog000.u64" := Stored scenario_range]> ∅) 0 1 (fun _ => true).

Definition instant_state : progress_state_t :=
  mk_state PROGRESS_PAGE_DISPLAY PROGRESS_SUBPAGE_YEAR 0
    (mk_dates (mk_datetime 2025 12 31 23 59) (mk_datetime 2025 12 31 23 59))
    false false.

(* ===================================================================== *)
(** ** The display calls of the face *)
(* ===================================================================== *)

(** Modelled from the spec: the display zones of [displayText(position,
    text)] that the face addresses. *)
Inductive watch_position_t : Set :=
| WATCH_POSITION_TOP
| WATCH_POSITION_BOTTOM
| WATCH_POSITION_HOURS
| WATCH_POSITION_MINUTES
| WATCH_POSITION_SECONDS.

(** Modelled from the spec: the result of [getDisplayPersonality()]. *)
Inductive watch_lcd_type_t : Set :=
| WATCH_LCD_TYPE_UNKNOWN
| WATCH_LCD_TYPE_CLASSIC
| WATCH_LCD_TYPE_CUSTOM.

(** One call to the display driver, as the face issues it; the driver
    itself is not interpreted. *)
Inductive display_call : Set :=
| watch_display_text (position : watch_position_t) (text : string)
| watch_display_text_with_fallback
    (position : watch_position_t) (text fallback : string)
| watch_set_colon
| watch_clear_colon
| watch_set_decimal_if_available
| watch_clear_decimal_if_available.

(** The decimal digits of an unsigned value, most significant first, as
    [printf] writes them for [%u] and [%llu]; [fuel] bounds the number of
    digits. *)
Fixpoint decimal_digits (fuel : nat) (n : Z) : string :=
  match fuel with
  | O => EmptyString
  | S fuel' =>
      if n <? 10 then String (digit_char n) EmptyString
      else String.append (decimal_digits fuel' (n ÷ 10))
                         (String (digit_char (n mod 10)) EmptyString)
  end.

(** A [uint64_t] has at most 20 decimal digits. *)
Definition print_unsigned (n : Z) : string := decimal_digits 20 n.

Fixpoint padding (n : nat) (c : ascii) : string :=
  match n with
  | O => EmptyString
  | S k => String c (padding k c)
  end.

(** A minimum field width: the text is padded on the left, never cut. *)
Definition pad_left (c : ascii) (width : nat) (s : string) : string :=
  String.append (padding (width - String.length s) c) s.

(** [sprintf(buf, "%06llu", v)], [sprintf(buf, "%4u", v)] and the
    conversion [%02u]. *)
Definition sprintf_06llu (v : Z) : string := pad_left "0" 6 (print_unsigned v).
Definition sprintf_4u (v : Z) : string := pad_left " " 4 (print_unsigned v).
Definition sprintf_02u (v : Z) : string := pad_left "0" 2 (print_unsigned v).

(** The calls [_progress_face_update_display] makes for the value
    [percentage_x10000], on a display of type [lcd]. *)
Definition update_display_calls
    (lcd : watch_lcd_type_t) (percentage_x10000 : Z) : list display_call :=
  [watch_display_text_with_fallback WATCH_POSITION_TOP "PROG " "PR   "]
  ++ (if percentage_x10000 >=? 1000000 then
        [watch_display_text_with_fallback WATCH_POSITION_BOTTOM "1000000" "100   "]
        ++ match lcd with
           | WATCH_LCD_TYPE_CUSTOM => []
           | _ => [watch_clear_colon]
           end
      else
        let buf := sprintf_06llu percentage_x10000 in
        match lcd with
        | WATCH_LCD_TYPE_CUSTOM => []
        | _ => [watch_set_colon]
        end
        ++ [watch_display_text WATCH_POSITION_BOTTOM buf])
  ++ match lcd with
     | WATCH_LCD_TYPE_CUSTOM => [watch_set_decimal_if_available]
     | _ => []
     end.

(** The text [_progress_face_display_current_value] formats into [buf]. *)
Definition current_value_text (state : progress_state_t) : string :=
  let active_dt := _progress_face_get_active_datetime state in
  match current_subpage state with
  | PROGRESS_SUBPAGE_YEAR => sprintf_4u (bit_year active_dt)
  | PROGRESS_SUBPAGE_MONTH | PROGRESS_SUBPAGE_DAY =>
      String.append (sprintf_02u (bit_month active_dt))
                    (sprintf_02u (bit_day active_dt))
  | _ =>
      String.append (sprintf_02u (bit_hour active_dt))
                    (sprintf_02u (bit_minute active_dt))
  end.

Definition _progress_face_display_current_value
    (state : progress_state_t) (subsecond : Z) : list display_call :=
  [match current_subpage state with
   | PROGRESS_SUBPAGE_HOUR | PROGRESS_SUBPAGE_MINUTE => watch_set_colon
   | _ => watch_clear_colon
   end;
   watch_display_text WATCH_POSITION_BOTTOM (current_value_text state)]
  ++ (if negb (Z.rem subsecond 2 =? 0) && negb (quick_cycle state) then
        [match current_subpage state with
         | PROGRESS_SUBPAGE_YEAR =>
             watch_display_text WATCH_POSITION_BOTTOM "    "
         | PROGRESS_SUBPAGE_MONTH => watch_display_text WATCH_POSITION_HOURS "  "
         | PROGRESS_SUBPAGE_DAY => watch_display_text WATCH_POSITION_MINUTES "  "
         | PROGRESS_SUBPAGE_HOUR => watch_display_text WATCH_POSITION_HOURS "  "
         | PROGRESS_SUBPAGE_MINUTE =>
             watch_display_text WATCH_POSITION_MINUTES "  "
         end]
      else []).

(** The value a string of decimal digits denotes. *)
Definition digit_value (c : ascii) : Z := Z.of_nat (nat_of_ascii c) - 48.

Fixpoint decimal_value_from (acc : Z) (s : string) : Z :=
  match s with
  | EmptyString => acc
  | String c rest => decimal_value_from (acc * 10 + digit_value c) rest
  end.

Definition decimal_value (s : string) : Z := decimal_value_from 0 s.

(** The texts the calls put on the bottom zone with [watch_display_text]. *)
Definition bottom_texts (calls : list display_call) : list string :=
  flat_map (fun c => match c with
                     | watch_display_text WATCH_POSITION_BOTTOM text => [text]
                     | _ => []
                     end) calls.

(* ===================================================================== *)
(** ** Repeated edits and key presses *)
(* ===================================================================== *)

Section Repeated.

Context `{Host}.


(** The display calls of [_progress_face_update_display]. *)
Definition _progress_face_update_display_calls
    (state : progress_state_t) (current_time : watch_date_time_t)
    (lcd : watch_lcd_type_t) : list display_call :=
  update_display_calls lcd (_progress_face_update_display state current_time).

End Repeated.

(** Whether the event makes [progress_face_loop] call
    [_progress_face_increment_current] in the state. *)
Definition edits_field
    (event_type : movement_event_type_t) (inputs : host_inputs)
    (state : progress_state_t) : bool :=
  match event_type with
  | EVENT_LOW_ENERGY_UPDATE | EVENT_TICK =>
      quick_cycle state && HAL_GPIO_BTN_ALARM_read inputs
  | EVENT_ALARM_BUTTON_UP =>
      match current_page state with
      | PROGRESS_PAGE_DISPLAY => false
      | _ => true
      end
  | _ => false
  end.

(* ===================================================================== *)
(** * Properties *)
(* ===================================================================== *)

(* ===================================================================== *)
(** ** Calendar arithmetic: ranges *)
(* ===================================================================== *)

Lemma month_cases16 m : 0 <= m < 16 ->
  m = 0 \/ m = 1 \/ m = 2 \/ m = 3 \/ m = 4 \/ m = 5 \/ m = 6 \/ m = 7 \/
  m = 8 \/ m = 9 \/ m = 10 \/ m = 11 \/ m = 12 \/ m = 13 \/ m = 14 \/ m = 15.
Proof. lia. Qed.

Lemma quot_1461 Y : 0 <= Y -> (1461 * Y) ÷ 4 = 365 * Y + Y / 4.
Proof. intros. rewrite Z.quot_div_nonneg by lia. Z.div_mod_to_equations; lia. Qed.

Lemma quot_3 c : 0 <= c -> (3 * c) ÷ 4 = c - (c + 3) / 4.
Proof. intros. rewrite Z.quot_div_nonneg by lia. Z.div_mod_to_equations; lia. Qed.

(** The year part of the day number, for the shifted year [Y]. *)
Lemma year_part_bounds Y c :
  4799 <= Y <= 8895 -> c = Y + 100 ->
  1735000 <= (1461 * Y) ÷ 4 - (3 * (c ÷ 100)) ÷ 4 <= 3250000.
Proof.
  intros HY ->. rewrite quot_1461 by lia.
  rewrite (Z.quot_div_nonneg (Y + 100)) by lia.
  rewrite quot_3 by (apply Z.div_pos; lia).
  Z.div_mod_to_equations; lia.
Qed.

(** The C quotient [(month - 14) / 12] is -1 up to February, 0 after. *)
Lemma month_shift m :
  0 <= m < 16 ->
  (m <= 2 /\ (m - 14) ÷ 12 = -1) \/ (3 <= m /\ (m - 14) ÷ 12 = 0).
Proof.
  intros Hm.
  destruct (month_cases16 m Hm)
    as [-> | [-> | [-> | [-> | [-> | [-> | [-> | [-> | [-> | [-> | [-> | [->
       | [-> | [-> | [-> | ->]]]]]]]]]]]]]]];
    vm_compute; intuition congruence.
Qed.

Lemma month_part_bounds m a :
  0 <= m < 16 -> (m <= 2 /\ a = -1) \/ (3 <= m /\ a = 0) ->
  0 <= (367 * (m - 2 - 12 * a)) ÷ 12 <= 400.
Proof.
  intros Hm [[Hl ->] | [Hl ->]];
    rewrite Z.quot_div_nonneg by lia; Z.div_mod_to_equations; lia.
Qed.

Lemma julian_day_int_bounds dt :
  datetime_in_range dt -> 1700000 <= julian_day_int dt <= 3300000.
Proof.
  destruct dt as [y m d hh mm]. unfold datetime_in_range, julian_day_int.
  cbn [bit_year bit_month bit_day bit_hour bit_minute].
  intros (Hy & Hm & Hd & _).
  pose proof (month_shift m Hm) as Ha.
  pose proof (month_part_bounds m _ Hm Ha) as Hk.
  pose proof (year_part_bounds (y + 4800 + (m - 14) ÷ 12)
                (y + 4900 + (m - 14) ÷ 12) ltac:(lia) ltac:(lia)).
  lia.
Qed.

(** The [int] computation of the day number stays within the range of
    the type: each product, and the result. *)
Lemma julian_day_int_in_int dt :
  datetime_in_range dt ->
  let a := (bit_month dt - 14) ÷ 12 in
  in_int (1461 * (bit_year dt + 4800 + a)) /\
  in_int (367 * (bit_month dt - 2 - 12 * a)) /\
  in_int (3 * ((bit_year dt + 4900 + a) ÷ 100)) /\
  in_int (julian_day_int dt).
Proof.
  intros Hr. pose proof (julian_day_int_bounds dt Hr) as Hj.
  destruct Hr as (Hy & Hm & _). cbn zeta. unfold in_int.
  change (2 ^ 31) with 2147483648.
  destruct (month_shift (bit_month dt) Hm) as [[Hl ->] | [Hl ->]];
    (split; [lia |]); (split; [lia |]); (split; [| lia]);
    rewrite Z.quot_div_nonneg by lia; Z.div_mod_to_equations; lia.
Qed.

Lemma u64_small x : 0 <= x < 2 ^ 64 -> u64 x = x.
Proof. intros. unfold u64. apply Z.mod_small. lia. Qed.

Lemma to_int64_small x : 0 <= x < 2 ^ 63 -> to_int64 x = x.
Proof.
  intros Hx. unfold to_int64. rewrite Z.mod_small by lia.
  destruct (Z.ltb_spec x (2 ^ 63)); lia.
Qed.

(** No conversion and no [uint64_t] operation of
    [_progress_datetime_to_minutes] wraps around. *)
Lemma minutes_linear dt :
  datetime_in_range dt ->
  _progress_datetime_to_minutes dt = linearMinutes dt.
Proof.
  intros Hr. pose proof (julian_day_int_bounds dt Hr) as Hj.
  destruct Hr as (_ & _ & _ & Hh & Hm).
  unfold _progress_datetime_to_minutes, linearMinutes, u64_add, u64_mul.
  assert (H64 : 2 ^ 64 = 18446744073709551616) by reflexivity.
  rewrite (u64_small (julian_day_int dt)) by lia.
  rewrite (u64_small (bit_hour dt * 60)), (u64_small (bit_minute dt)) by lia.
  rewrite (u64_small (julian_day_int dt * 24)) by lia.
  rewrite (u64_small (julian_day_int dt * 24 * 60)) by lia.
  rewrite (u64_small (julian_day_int dt * 24 * 60 + bit_hour dt * 60)) by lia.
  rewrite u64_small by lia. lia.
Qed.

Lemma linearMinutes_bounds dt :
  datetime_in_range dt -> 2448000000 <= linearMinutes dt < 4752002000.
Proof.
  intros Hr. pose proof (julian_day_int_bounds dt Hr) as Hj.
  destruct Hr as (_ & _ & _ & Hh & Hm). unfold linearMinutes. lia.
Qed.

Lemma compare_linear a b :
  datetime_in_range a -> datetime_in_range b ->
  _progress_datetime_compare a b = linearMinutes b - linearMinutes a.
Proof.
  intros Ha Hb. unfold _progress_datetime_compare.
  rewrite !minutes_linear by assumption.
  pose proof (linearMinutes_bounds a Ha). pose proof (linearMinutes_bounds b Hb).
  assert (H63 : 2 ^ 63 = 9223372036854775808) by reflexivity.
  rewrite !to_int64_small by lia. reflexivity.
Qed.

(* ===================================================================== *)
(** ** Calendar arithmetic: the day number follows the calendar *)
(* ===================================================================== *)

Lemma leap_day_cases y :
  (leap_day y = 1 /\ y mod 4 = 0 /\ (y mod 100 <> 0 \/ y mod 400 = 0)) \/
  (leap_day y = 0 /\ (y mod 4 <> 0 \/ (y mod 100 = 0 /\ y mod 400 <> 0))).
Proof.
  unfold leap_day, is_leap_year.
  destruct (Z.eqb_spec (y mod 4) 0), (Z.eqb_spec (y mod 100) 0),
    (Z.eqb_spec (y mod 400) 0); simpl; lia.
Qed.

Lemma leap_day_range y : 0 <= leap_day y <= 1.
Proof. unfold leap_day. destruct (is_leap_year y); lia. Qed.

Lemma century_400 y : 0 <= y -> (y / 100 + 52) / 4 = y / 400 + 13.
Proof. intros. Z.div_mod_to_equations; lia. Qed.

(** From the shifted year 4799 + y to 4800 + y the year part of the day
    number grows by the length of the span from March of year y - 1 to
    March of year y. *)
Lemma leap_shift y :
  0 <= y ->
  (1461 * (y + 4800)) ÷ 4 - (3 * ((y + 4900) ÷ 100)) ÷ 4
  = (1461 * (y + 4799)) ÷ 4 - (3 * ((y + 4899) ÷ 100)) ÷ 4 + 365 + leap_day y.
Proof.
  intros Hy.
  rewrite !quot_1461 by lia.
  rewrite (Z.quot_div_nonneg (y + 4900)), (Z.quot_div_nonneg (y + 4899)) by lia.
  rewrite !quot_3 by (apply Z.div_pos; lia).
  replace ((y + 4900) / 100) with (y / 100 + 49) by (Z.div_mod_to_equations; lia).
  replace (y / 100 + 49 + 3) with (y / 100 + 52) by lia.
  rewrite century_400 by lia.
  destruct (leap_day_cases y) as [(-> & H) | (-> & H)];
    Z.div_mod_to_equations; lia.
Qed.

Lemma month_cases12 m : 1 <= m <= 12 ->
  m = 1 \/ m = 2 \/ m = 3 \/ m = 4 \/ m = 5 \/ m = 6 \/ m = 7 \/
  m = 8 \/ m = 9 \/ m = 10 \/ m = 11 \/ m = 12.
Proof. lia. Qed.

Ltac each_month Hm :=
  match type of Hm with
  | 1 <= ?m <= 12 =>
      destruct (month_cases12 m Hm)
        as [-> | [-> | [-> | [-> | [-> | [-> | [-> | [-> | [-> | [-> | [-> | ->
           ]]]]]]]]]]]
  end.

Lemma year_base_unfold y :
  year_base y
  = (1461 * (y + 4799)) ÷ 4 - (3 * ((y + 4899) ÷ 100)) ÷ 4 + 336 - 32075.
Proof.
  unfold year_base, julian_day_int. cbn [bit_year bit_month bit_day].
  change ((1 - 14) ÷ 12) with (-1).
  change ((367 * (1 - 2 - 12 * -1)) ÷ 12) with 336.
  replace (y + 4800 + -1) with (y + 4799) by lia.
  replace (y + 4900 + -1) with (y + 4899) by lia. lia.
Qed.

(** The day number of a date is the base of its year, plus the days of the
    months before it, plus the day of the month. *)
Lemma julian_day_closed y m d hh mm :
  0 <= y -> 1 <= m <= 12 ->
  julian_day_int (mk_datetime y m d hh mm)
  = year_base y + days_before_month m y + d.
Proof.
  intros Hy Hm. rewrite year_base_unfold.
  unfold julian_day_int. cbn [bit_year bit_month bit_day].
  pose proof (leap_shift y Hy) as Hs.
  each_month Hm;
    match goal with
    | |- context [(?k - 14) ÷ 12] =>
        let a := eval vm_compute in ((k - 14) ÷ 12) in
        change ((k - 14) ÷ 12) with a;
        let b := eval vm_compute in ((367 * (k - 2 - 12 * a)) ÷ 12) in
        change ((367 * (k - 2 - 12 * a)) ÷ 12) with b
    end;
    cbn [days_before_month];
    rewrite ?Z.add_0_r;
    try replace (y + 4800 + -1) with (y + 4799) by lia;
    try replace (y + 4900 + -1) with (y + 4899) by lia;
    lia.
Qed.

Lemma year_base_step y :
  0 <= y -> year_base (y + 1) = year_base y + 365 + leap_day y.
Proof.
  intros Hy. rewrite !year_base_unfold.
  pose proof (leap_shift y Hy).
  replace (y + 1 + 4799) with (y + 4800) by lia.
  replace (y + 1 + 4899) with (y + 4900) by lia. lia.
Qed.

Lemma year_base_mono y1 y2 :
  0 <= y1 <= y2 -> year_base y1 + 365 * (y2 - y1) <= year_base y2.
Proof.
  intros [H1 H2]. pattern y2. apply Zlt_lower_bound_ind with (z := y1).
  2: lia.
  intros x IH Hx. destruct (Z.eq_dec x y1) as [-> | Hne]; [lia |].
  specialize (IH (x - 1) ltac:(lia)).
  pose proof (year_base_step (x - 1) ltac:(lia)) as Hs.
  replace (x - 1 + 1) with x in Hs by lia.
  pose proof (leap_day_range (x - 1)). lia.
Qed.

(** The months of one year follow each other without gap or overlap. *)
Lemma days_before_month_next m1 m2 y :
  1 <= m1 -> m1 < m2 -> m2 <= 12 ->
  days_before_month m1 y + gregorian_days_in_month m1 y
  <= days_before_month m2 y.
Proof.
  intros H1 H12 H2. pose proof (leap_day_range y).
  assert (Hm1 : 1 <= m1 <= 12) by lia. assert (Hm2 : 1 <= m2 <= 12) by lia.
  each_month Hm1; each_month Hm2; try lia;
    cbn [days_before_month gregorian_days_in_month]; lia.
Qed.

Lemma days_before_month_range m y :
  1 <= m <= 12 ->
  0 <= days_before_month m y /\
  days_before_month m y + gregorian_days_in_month m y <= 365 + leap_day y.
Proof.
  intros Hm. pose proof (leap_day_range y).
  each_month Hm; cbn [days_before_month gregorian_days_in_month]; lia.
Qed.

(** [linearMinutes] is strictly monotonic in calendar order. *)
Lemma linearMinutes_strict_mono a b :
  valid_calendar a -> valid_calendar b ->
  calendar_before a b -> linearMinutes a < linearMinutes b.
Proof.
  destruct a as [y1 m1 d1 h1 n1], b as [y2 m2 d2 h2 n2].
  unfold valid_calendar, calendar_before, linearMinutes.
  cbn [bit_year bit_month bit_day bit_hour bit_minute].
  intros (Hy1 & Hm1 & Hd1 & Hh1 & Hn1) (Hy2 & Hm2 & Hd2 & Hh2 & Hn2) Hlt.
  rewrite !julian_day_closed by lia.
  pose proof (days_before_month_range m1 y1 Hm1).
  pose proof (days_before_month_range m2 y2 Hm2).
  destruct Hlt as [Hy | (-> & [Hm | (-> & Hrest)])].
  - pose proof (year_base_mono (y1 + 1) y2 ltac:(lia)).
    pose proof (year_base_step y1 ltac:(lia)). lia.
  - pose proof (days_before_month_next m1 m2 y2 ltac:(lia) Hm ltac:(lia)). lia.
  - lia.
Qed.

(* ===================================================================== *)
(** ** The progress value *)
(* ===================================================================== *)

Lemma bits_range w x : 0 < w -> 0 <= bits w x < 2 ^ w.
Proof. intros Hw. unfold bits. apply Z.mod_pos_bound. apply Z.pow_pos_nonneg; lia. Qed.

Lemma bits_small w x : 0 <= x < 2 ^ w -> bits w x = x.
Proof. intros. unfold bits. apply Z.mod_small. assumption. Qed.

Lemma u64_range x : 0 <= u64 x < 2 ^ 64.
Proof. unfold u64. apply Z.mod_pos_bound. reflexivity. Qed.

Lemma minutes_u64 dt :
  0 <= _progress_datetime_to_minutes dt < 2 ^ 64.
Proof. unfold _progress_datetime_to_minutes, u64_add. apply u64_range. Qed.

(** With minute counts of calendar size the interior branch computes the
    floor of the exact quotient: nothing wraps around. *)
Lemma percentage_of_minutes_exact s e c :
  0 <= s < 2 ^ 33 -> 0 <= e < 2 ^ 33 -> 0 <= c < 2 ^ 33 ->
  snd (percentage_of_minutes s e c)
  = if c <=? s then 0
    else if c >=? e then 1000000
    else ((c - s) * 1000000) / (e - s).
Proof.
  intros Hs He Hc. unfold percentage_of_minutes.
  destruct (Z.leb_spec c s) as [Hcs | Hcs]; [reflexivity |].
  destruct (Z.geb_spec c e) as [Hce | Hce]; [reflexivity |].
  assert (H33 : 2 ^ 33 = 8589934592) by reflexivity.
  assert (H64 : 2 ^ 64 = 18446744073709551616) by reflexivity.
  unfold u64_mul, u64_sub, u64_div.
  rewrite (u64_small (c - s)), (u64_small (e - s)) by lia.
  rewrite (u64_small ((c - s) * 1000000)) by lia.
  destruct (Z.gtb_spec (e - s) 0) as [Hd | Hd]; [| lia].
  cbn [snd]. apply Z.quot_div_nonneg; lia.
Qed.

Section Progress.

Context `{Host}.

Lemma current_dt_in_range now : datetime_in_range (current_dt_of now).
Proof.
  unfold datetime_in_range, current_dt_of.
  cbn [bit_year bit_month bit_day bit_hour bit_minute].
  pose proof (bits_range 12 (unit_year now + WATCH_RTC_REFERENCE_YEAR) ltac:(lia)).
  pose proof (bits_range 4 (unit_month now) ltac:(lia)).
  pose proof (bits_range 5 (unit_day now) ltac:(lia)).
  pose proof (bits_range 5 (unit_hour now) ltac:(lia)).
  pose proof (bits_range 6 (unit_minute now) ltac:(lia)).
  change (2 ^ 12) with 4096 in *. change (2 ^ 4) with 16 in *.
  change (2 ^ 5) with 32 in *. change (2 ^ 6) with 64 in *. lia.
Qed.

Lemma linearMinutes_33 dt :
  datetime_in_range dt -> 0 <= linearMinutes dt < 2 ^ 33.
Proof.
  intros Hr. pose proof (linearMinutes_bounds dt Hr).
  change (2 ^ 33) with 8589934592. lia.
Qed.

(** The displayed value is the reference value. *)
Lemma update_display_reference state now :
  dates_in_range (dates state) ->
  _progress_face_update_display state now
  = computeProgressFixedPoint (start_datetime (dates state))
      (end_datetime (dates state)) (current_dt_of now).
Proof.
  intros [Hs He]. unfold _progress_face_update_display, computeProgressFixedPoint.
  pose proof (current_dt_in_range now) as Hc.
  rewrite !minutes_linear by assumption.
  apply percentage_of_minutes_exact; apply linearMinutes_33; assumption.
Qed.

End Progress.

Lemma reference_range start end_ now :
  linearMinutes start < linearMinutes end_ ->
  0 <= computeProgressFixedPoint start end_ now <= 1000000.
Proof.
  intros Hlt. unfold computeProgressFixedPoint.
  destruct (Z.leb_spec (linearMinutes now) (linearMinutes start)); [lia |].
  destruct (Z.geb_spec (linearMinutes now) (linearMinutes end_)); [lia |].
  split.
  - apply Z.div_pos; lia.
  - apply Z.div_le_upper_bound; nia.
Qed.

Lemma reference_mono start end_ now1 now2 :
  linearMinutes start < linearMinutes end_ ->
  linearMinutes now1 <= linearMinutes now2 ->
  computeProgressFixedPoint start end_ now1
  <= computeProgressFixedPoint start end_ now2.
Proof.
  intros Hlt Hle.
  pose proof (reference_range start end_ now1 Hlt) as R1.
  pose proof (reference_range start end_ now2 Hlt) as R2.
  unfold computeProgressFixedPoint in *.
  destruct (Z.leb_spec (linearMinutes now1) (linearMinutes start)); [lia |].
  destruct (Z.leb_spec (linearMinutes now2) (linearMinutes start)); [lia |].
  destruct (Z.geb_spec (linearMinutes now2) (linearMinutes end_)); [lia |].
  destruct (Z.geb_spec (linearMinutes now1) (linearMinutes end_)); [lia |].
  apply Z.div_le_mono; nia.
Qed.

Lemma valid_calendar_in_range dt : valid_calendar dt -> datetime_in_range dt.
Proof.
  destruct dt as [y m d hh mm]. unfold valid_calendar, datetime_in_range.
  cbn [bit_year bit_month bit_day bit_hour bit_minute].
  intros (Hy & Hm & Hd & Hh & Hn).
  pose proof (days_before_month_range m y Hm). pose proof (leap_day_range y).
  assert (gregorian_days_in_month m y <= 31)
    by (each_month Hm; cbn [gregorian_days_in_month]; lia).
  lia.
Qed.

Lemma calendar_trichotomy a b :
  calendar_before a b \/ a = b \/ calendar_before b a.
Proof.
  destruct a as [y1 m1 d1 h1 n1], b as [y2 m2 d2 h2 n2].
  unfold calendar_before. cbn [bit_year bit_month bit_day bit_hour bit_minute].
  destruct (Z.lt_trichotomy y1 y2) as [? | [-> | ?]]; [lia | | lia].
  destruct (Z.lt_trichotomy m1 m2) as [? | [-> | ?]]; [lia | | lia].
  destruct (Z.lt_trichotomy d1 d2) as [? | [-> | ?]]; [lia | | lia].
  destruct (Z.lt_trichotomy h1 h2) as [? | [-> | ?]]; [lia | | lia].
  destruct (Z.lt_trichotomy n1 n2) as [? | [-> | ?]]; [lia | | lia].
  right; left; reflexivity.
Qed.

(** C5. For valid calendar values the comparison by the difference of the
    minute counts is a strict total order that agrees with calendar
    chronology: the minute count is strictly monotonic in calendar order,
    and December 31 23:59 of a year is exactly one minute before January 1
    00:00 of the next. *)
Theorem compare_strict_total_order a b c Y :
  valid_calendar a -> valid_calendar b -> valid_calendar c ->
  0 <= Y < 4095 ->
  (calendar_before a b <-> 0 < _progress_datetime_compare a b) /\
  (a = b <-> _progress_datetime_compare a b = 0) /\
  (calendar_before b a <-> _progress_datetime_compare a b < 0) /\
  ~ 0 < _progress_datetime_compare a a /\
  (0 < _progress_datetime_compare a b -> 0 < _progress_datetime_compare b c ->
   0 < _progress_datetime_compare a c) /\
  (a <> b ->
   0 < _progress_datetime_compare a b \/ 0 < _progress_datetime_compare b a) /\
  (calendar_before a b ->
   _progress_datetime_to_minutes a < _progress_datetime_to_minutes b) /\
  _progress_datetime_to_minutes (mk_datetime (Y + 1) 1 1 0 0)
  = _progress_datetime_to_minutes (mk_datetime Y 12 31 23 59) + 1.
Proof.
  intros Va Vb Vc HY.
  pose proof (valid_calendar_in_range a Va) as Ra.
  pose proof (valid_calendar_in_range b Vb) as Rb.
  pose proof (valid_calendar_in_range c Vc) as Rc.
  rewrite !compare_linear, !minutes_linear by assumption.
  pose proof (linearMinutes_strict_mono a b Va Vb) as Hab.
  pose proof (linearMinutes_strict_mono b a Vb Va) as Hba.
  assert (Hyear :
    _progress_datetime_to_minutes (mk_datetime (Y + 1) 1 1 0 0)
    = _progress_datetime_to_minutes (mk_datetime Y 12 31 23 59) + 1).
  { rewrite !minutes_linear
      by (unfold datetime_in_range;
          cbn [bit_year bit_month bit_day bit_hour bit_minute]; lia).
    unfold linearMinutes. rewrite !julian_day_closed by lia.
    rewrite year_base_step by lia.
    cbn [bit_hour bit_minute days_before_month]. lia. }
  split; [| split; [| split; [| split; [| split; [| split; [| split]]]]]];
    try exact Hyear; try lia.
  - split; [intros Hc; specialize (Hab Hc); lia |].
    intros Hc. destruct (calendar_trichotomy a b) as [Hlt | [Heq | Hgt]];
      [assumption | subst b; lia | specialize (Hba Hgt); lia].
  - split; [intros ->; lia |].
    intros Hc. destruct (calendar_trichotomy a b) as [Hlt | [Heq | Hgt]];
      [specialize (Hab Hlt); lia | assumption | specialize (Hba Hgt); lia].
  - split; [intros Hc; specialize (Hba Hc); lia |].
    intros Hc. destruct (calendar_trichotomy a b) as [Hlt | [Heq | Hgt]];
      [specialize (Hab Hlt); lia | subst b; lia | assumption].
  - intros Hne. destruct (calendar_trichotomy a b) as [Hlt | [Heq | Hgt]];
      [specialize (Hab Hlt); lia | contradiction | specialize (Hba Hgt); lia].
  - intros Hc. specialize (Hab Hc). lia.
Qed.

Lemma compare_strict_total_order_witness :
  valid_calendar (mk_datetime 2024 2 29 23 59) /\
  valid_calendar (mk_datetime 2024 3 1 0 0) /\
  0 <= 2024 < 4095 /\
  (calendar_before (mk_datetime 2024 2 29 23 59) (mk_datetime 2024 3 1 0 0) <->
   0 < _progress_datetime_compare (mk_datetime 2024 2 29 23 59)
                                  (mk_datetime 2024 3 1 0 0)).
Proof.
  assert (V1 : valid_calendar (mk_datetime 2024 2 29 23 59))
    by (repeat split; vm_compute; congruence).
  assert (V2 : valid_calendar (mk_datetime 2024 3 1 0 0))
    by (repeat split; vm_compute; congruence).
  split; [exact V1 |]. split; [exact V2 |]. split; [lia |].
  exact (proj1 (compare_strict_total_order _ _ (mk_datetime 2024 3 1 0 0) 2024
                  V1 V2 V2 ltac:(lia))).
Defined.

Section ProgressProperties.

Context `{Host}.

(** C2. For a range with start < end the computed value is the piecewise
    reference value: 0 up to the start, 1,000,000 from the end on, and in
    between the floor of the exact quotient of elapsed by total minutes
    times 1,000,000. *)
Theorem progress_matches_reference state now :
  dates_in_range (dates state) ->
  linearMinutes (start_datetime (dates state))
  < linearMinutes (end_datetime (dates state)) ->
  let start := linearMinutes (start_datetime (dates state)) in
  let end_ := linearMinutes (end_datetime (dates state)) in
  let current := linearMinutes (current_dt_of now) in
  _progress_face_update_display state now
  = computeProgressFixedPoint (start_datetime (dates state))
      (end_datetime (dates state)) (current_dt_of now) /\
  (current <= start -> _progress_face_update_display state now = 0) /\
  (end_ <= current -> _progress_face_update_display state now = 1000000) /\
  (start < current < end_ ->
   _progress_face_update_display state now
   = ((current - start) * 1000000) / (end_ - start)).
Proof.
  intros Hr Hlt start end_ current.
  rewrite (update_display_reference state now Hr).
  unfold computeProgressFixedPoint. fold start end_ current.
  destruct (Z.leb_spec current start), (Z.geb_spec current end_);
    repeat split; intros; try reflexivity; lia.
Qed.

(** C3. For a range with start < end the computed value never decreases
    as the current time advances, and always lies in [0, 1,000,000]. *)
Theorem progress_monotone_bounded state now1 now2 :
  dates_in_range (dates state) ->
  linearMinutes (start_datetime (dates state))
  < linearMinutes (end_datetime (dates state)) ->
  linearMinutes (current_dt_of now1) <= linearMinutes (current_dt_of now2) ->
  _progress_face_update_display state now1
  <= _progress_face_update_display state now2 /\
  0 <= _progress_face_update_display state now1 <= 1000000.
Proof.
  intros Hr Hlt Hle. rewrite !update_display_reference by assumption.
  split; [apply reference_mono | apply reference_range]; assumption.
Qed.

(** C1, as the code has it. When the end equals the start, the computed
    value is 0 while the current time is at or before that instant and
    1,000,000 once it is after it. *)
Theorem equal_range_progress state now :
  dates_in_range (dates state) ->
  linearMinutes (end_datetime (dates state))
  = linearMinutes (start_datetime (dates state)) ->
  _progress_face_update_display state now
  = if linearMinutes (current_dt_of now)
       <=? linearMinutes (start_datetime (dates state))
    then 0 else 1000000.
Proof.
  intros Hr Heq. rewrite (update_display_reference state now Hr).
  unfold computeProgressFixedPoint. rewrite Heq.
  destruct (Z.leb_spec (linearMinutes (current_dt_of now))
              (linearMinutes (start_datetime (dates state)))); [reflexivity |].
  destruct (Z.geb_spec (linearMinutes (current_dt_of now))
              (linearMinutes (start_datetime (dates state)))); [reflexivity | lia].
Qed.

(** C10. The else-branch of [duration > 0] is never taken: the interior
    branch is entered only with start < current < end, where the
    duration is strictly positive and the division is defined. *)
Theorem zero_duration_branch_unreachable state now :
  let start_minutes :=
    _progress_datetime_to_minutes (start_datetime (dates state)) in
  let end_minutes :=
    _progress_datetime_to_minutes (end_datetime (dates state)) in
  let current_minutes :=
    _progress_datetime_to_minutes (current_dt_of now) in
  update_display_branch state now <> BranchZeroDuration /\
  (update_display_branch state now = BranchInterior <->
   start_minutes < current_minutes < end_minutes) /\
  (start_minutes < current_minutes < end_minutes ->
   0 < u64_sub end_minutes start_minutes).
Proof.
  intros s e c. unfold update_display_branch. fold s e c.
  pose proof (minutes_u64 (start_datetime (dates state))) as Hs.
  pose proof (minutes_u64 (end_datetime (dates state))) as He.
  fold s in Hs. fold e in He. clearbody s e c.
  assert (Hd : s < e -> u64_sub e s = e - s)
    by (intros; unfold u64_sub; apply u64_small; lia).
  unfold percentage_of_minutes.
  destruct (Z.leb_spec c s); [cbn; intuition (try discriminate; try lia) |].
  destruct (Z.geb_spec c e); [cbn; intuition (try discriminate; try lia) |].
  rewrite Hd by lia.
  destruct (Z.gtb_spec (e - s) 0); [| lia].
  cbn. intuition (try discriminate; try lia).
Qed.

End ProgressProperties.

Example scenario_a :
  _progress_face_update_display (H := reference_host) scenario_state scenario_now
  = 500000.
Proof. vm_compute. reflexivity. Qed.

(* ===================================================================== *)
(** ** The settings navigator *)
(* ===================================================================== *)

Lemma c_rem_some a b : b <> 0 -> c_rem a b = Some (Z.rem a b).
Proof. intros Hb. unfold c_rem. destruct (Z.eqb_spec b 0); [contradiction | reflexivity]. Qed.

Ltac bits_ranges :=
  repeat match goal with
  | |- context [bits ?w ?x] =>
      lazymatch goal with
      | _ : 0 <= bits w x < _ |- _ => fail
      | _ => pose proof (bits_range w x ltac:(lia))
      end
  end;
  change (2 ^ 12) with 4096 in *; change (2 ^ 4) with 16 in *;
  change (2 ^ 5) with 32 in *; change (2 ^ 6) with 64 in *.

Lemma validate_spec state :
  dates_in_range (dates state) ->
  let state' := _progress_face_validate_end_datetime state in
  current_page state' = current_page state /\
  current_subpage state' = current_subpage state /\
  quick_cycle state' = quick_cycle state /\
  face_index state' = face_index state /\
  start_datetime (dates state') = start_datetime (dates state) /\
  end_datetime (dates state')
  = (if linearMinutes (end_datetime (dates state))
        <? linearMinutes (start_datetime (dates state))
     then start_datetime (dates state) else end_datetime (dates state)) /\
  dates_in_range (dates state') /\
  end_not_before_start (dates state').
Proof.
  intros [Hs He]. unfold _progress_face_validate_end_datetime.
  rewrite compare_linear by assumption.
  unfold end_not_before_start, dates_in_range.
  destruct (Z.ltb_spec (linearMinutes (end_datetime (dates state))
                          - linearMinutes (start_datetime (dates state))) 0)
    as [Hlt | Hge];
    destruct (Z.ltb_spec (linearMinutes (end_datetime (dates state)))
                (linearMinutes (start_datetime (dates state)))); try lia;
    cbn [current_page current_subpage quick_cycle face_index dates
         start_datetime end_datetime];
    rewrite ?minutes_linear by assumption;
    (split; [reflexivity |]); (split; [reflexivity |]);
    (split; [reflexivity |]); (split; [reflexivity |]);
    (split; [reflexivity |]); (split; [reflexivity |]);
    (split; [split; assumption | lia]).
Qed.

Section Navigator.

Context `{Host}.

Lemma increment_field_in_range subpage now dt dt' :
  datetime_in_range dt ->
  increment_field subpage now dt = Some dt' ->
  datetime_in_range dt'.
Proof.
  intros (Hy & Hm & Hd & Hh & Hn). unfold increment_field.
  destruct subpage.
  - destruct (_ >? _); intros [= <-]; unfold datetime_in_range, set_year;
      cbn [bit_year bit_month bit_day bit_hour bit_minute]; bits_ranges; lia.
  - intros [= <-]. unfold datetime_in_range, set_month.
    cbn [bit_year bit_month bit_day bit_hour bit_minute]. bits_ranges. lia.
  - destruct (c_rem _ _) as [r |]; [| discriminate]. cbn. intros [= <-].
    unfold datetime_in_range, set_day.
    cbn [bit_year bit_month bit_day bit_hour bit_minute]. bits_ranges. lia.
  - intros [= <-]. unfold datetime_in_range, set_hour.
    cbn [bit_year bit_month bit_day bit_hour bit_minute]. bits_ranges. lia.
  - intros [= <-]. unfold datetime_in_range, set_minute.
    cbn [bit_year bit_month bit_day bit_hour bit_minute]. bits_ranges. lia.
Qed.

(** The field switch yields a date unless the day is edited while the
    host reports a month of zero days. *)
Lemma increment_field_total subpage now dt :
  (subpage = PROGRESS_SUBPAGE_DAY ->
   watch_utility_days_in_month (bit_month dt) (bit_year dt) <> 0) ->
  exists dt', increment_field subpage now dt = Some dt'.
Proof.
  intros Hd. unfold increment_field. destruct subpage; eauto.
  - destruct (_ >? _); eauto.
  - rewrite c_rem_some by auto. cbn. eauto.
Qed.

Lemma increment_current_unfold state now :
  _progress_face_increment_current state now
  = match increment_field (current_subpage state) now
            (_progress_face_get_active_datetime state) with
    | Some active_dt =>
        let state' := set_active_datetime (set_dates_changed state true) active_dt in
        match current_page state with
        | PROGRESS_PAGE_END => Some (_progress_face_validate_end_datetime state')
        | _ => Some state'
        end
    | None => None
    end.
Proof.
  unfold _progress_face_increment_current.
  cbn [set_dates_changed current_subpage current_page].
  unfold _progress_face_get_active_datetime. cbn [current_page dates].
  destruct (increment_field _ _ _); reflexivity.
Qed.

(** One edit: the page, subpage, instance and quick-cycle flag stay;
    dates stay in range; on the end page the range comes out ordered. *)
Lemma increment_current_spec state now state' :
  dates_in_range (dates state) ->
  _progress_face_increment_current state now = Some state' ->
  current_page state' = current_page state /\
  current_subpage state' = current_subpage state /\
  quick_cycle state' = quick_cycle state /\
  dates_in_range (dates state') /\
  (current_page state = PROGRESS_PAGE_END ->
   end_not_before_start (dates state')).
Proof.
  intros [Hs He]. rewrite increment_current_unfold.
  destruct (increment_field _ _ _) as [dt |] eqn:Hf; [| discriminate].
  assert (Hdt : datetime_in_range dt).
  { eapply increment_field_in_range; [| exact Hf].
    unfold _progress_face_get_active_datetime. destruct (current_page state); assumption. }
  cbn zeta.
  destruct (current_page state) eqn:Hp; intros [= <-].
  - unfold set_active_datetime, set_dates_changed, dates_in_range.
    cbn [current_page current_subpage quick_cycle dates]. rewrite Hp.
    cbn [start_datetime end_datetime]. intuition discriminate.
  - unfold set_active_datetime, set_dates_changed, dates_in_range.
    cbn [current_page current_subpage quick_cycle dates]. rewrite Hp.
    cbn [start_datetime end_datetime]. intuition discriminate.
  - set (s1 := set_active_datetime (set_dates_changed state true) dt).
    assert (Hr1 : dates_in_range (dates s1)).
    { unfold s1, set_active_datetime, set_dates_changed, dates_in_range.
      cbn [current_page dates]. rewrite Hp.
      cbn [start_datetime end_datetime]. split; assumption. }
    destruct (validate_spec s1 Hr1) as (E1 & E2 & E3 & _ & _ & _ & E7 & E8).
    rewrite E1, E2, E3.
    split; [exact Hp |]. split; [reflexivity |]. split; [reflexivity |].
    split; [exact E7 | intros _; exact E8].
Qed.

End Navigator.

Section NavigatorInvariant.

Context `{Host}.

Lemma abort_quick_cycle_spec state h :
  let '(state', h') := _progress_face_abort_quick_cycle state h in
  current_page state' = current_page state /\
  current_subpage state' = current_subpage state /\
  dates state' = dates state /\
  dates_changed state' = dates_changed state /\
  quick_cycle state' = false /\
  files h' = files h /\ write_calls h' = write_calls h /\
  (quick_cycle state = true -> tick_frequency h' = 4) /\
  (quick_cycle state = false -> state' = state /\ h' = h).
Proof.
  unfold _progress_face_abort_quick_cycle.
  destruct (quick_cycle state) eqn:Hq; cbn; intuition congruence.
Qed.

Lemma persist_dates_state state h :
  fst (_progress_face_persist_dates state h) = set_dates_changed state false.
Proof. reflexivity. Qed.

Lemma loop_keeps_order event inputs state h state' h' :
  navigator_ordered state ->
  progress_face_loop event inputs state h = Some (state', h') ->
  navigator_ordered state'.
Proof.
  intros [Hr Ho]. unfold progress_face_loop.
  assert (Hinc : forall s s' now,
             dates s = dates state -> current_page s = current_page state ->
             _progress_face_increment_current s now = Some s' ->
             navigator_ordered s').
  { intros s s' now Hd Hp Hs.
    destruct (increment_current_spec s now s' ltac:(rewrite Hd; exact Hr) Hs)
      as (P1 & _ & _ & P4 & P5).
    split; [exact P4 |]. intros Hp'. apply P5. congruence. }
  assert (Habort : forall s hh, fst (_progress_face_abort_quick_cycle s hh) = s \/
             fst (_progress_face_abort_quick_cycle s hh) = set_quick_cycle s false).
  { intros s hh. unfold _progress_face_abort_quick_cycle.
    destruct (quick_cycle s); cbn; auto. }
  assert (Hsame : forall s, dates s = dates state ->
             current_page s = current_page state -> navigator_ordered s).
  { intros s Hd Hp. unfold navigator_ordered. rewrite Hd, Hp. split; assumption. }
  destruct event.
  - intros [= <- <-]. split; assumption.
  - destruct (quick_cycle state); [| intros [= <- <-]; split; assumption].
    destruct (HAL_GPIO_BTN_ALARM_read inputs).
    + destruct (_progress_face_increment_current state _) as [s |] eqn:Hs;
        [| discriminate]. cbn. intros [= <- <-]. refine (Hinc _ _ _ _ _ Hs); reflexivity.
    + destruct (Habort state h) as [E | E];
        destruct (_progress_face_abort_quick_cycle state h) as [s hh];
        cbn in E; subst s; intros [= <- <-]; apply Hsame; reflexivity.
  - destruct (quick_cycle state); [| intros [= <- <-]; split; assumption].
    destruct (HAL_GPIO_BTN_ALARM_read inputs).
    + destruct (_progress_face_increment_current state _) as [s |] eqn:Hs;
        [| discriminate]. cbn. intros [= <- <-]. refine (Hinc _ _ _ _ _ Hs); reflexivity.
    + destruct (Habort state h) as [E | E];
        destruct (_progress_face_abort_quick_cycle state h) as [s hh];
        cbn in E; subst s; intros [= <- <-]; apply Hsame; reflexivity.
  - intros [= <- <-]. split; assumption.
  - destruct (current_page state) eqn:Hp.
    + intros [= <- <-]. apply Hsame; [reflexivity | exact Hp].
    + destruct (subpage_of_Z _); cbn [set_page current_page];
        intros [= <- <-];
        try (split; [exact Hr | cbn; discriminate]).
      match goal with
      | |- navigator_ordered (_progress_face_validate_end_datetime ?s) =>
          destruct (validate_spec s Hr) as (_ & _ & _ & _ & _ & _ & V1 & V2)
      end.
      split; [exact V1 | intros _; exact V2].
    + destruct (subpage_of_Z _); cbn [set_page current_page];
        intros [= <- <-];
        (split; [exact Hr | cbn; intros _; apply Ho; reflexivity]).
  - destruct (current_page state) eqn:Hp.
    + intros [= <- <-]. apply Hsame; [reflexivity | exact Hp].
    + destruct (Habort state h) as [E | E];
        destruct (_progress_face_abort_quick_cycle state h) as [s hh];
        cbn in E; subst s;
        (destruct (_progress_face_increment_current _ _) as [s |] eqn:Hs;
           [| discriminate]); cbn; intros [= <- <-];
        refine (Hinc _ _ _ _ _ Hs); first [reflexivity | exact Hp].
    + destruct (Habort state h) as [E | E];
        destruct (_progress_face_abort_quick_cycle state h) as [s hh];
        cbn in E; subst s;
        (destruct (_progress_face_increment_current _ _) as [s |] eqn:Hs;
           [| discriminate]); cbn; intros [= <- <-];
        refine (Hinc _ _ _ _ _ Hs); first [reflexivity | exact Hp].
  - destruct (current_page state) eqn:Hp; intros [= <- <-].
    + split; [exact Hr | cbn; discriminate].
    + apply Hsame; [reflexivity | exact Hp].
    + apply Hsame; [reflexivity | exact Hp].
  - destruct (Habort state h) as [E | E];
      destruct (_progress_face_abort_quick_cycle state h) as [s hh];
      cbn in E; subst s; intros [= <- <-]; apply Hsame; reflexivity.
  - destruct (Habort state h) as [E | E];
      destruct (_progress_face_abort_quick_cycle state h) as [s hh];
      cbn in E; subst s; intros [= <- <-]; apply Hsame; reflexivity.
  - intros [= <- <-]. split; assumption.
Qed.

Lemma run_keeps_order events : forall state h state' h',
  navigator_ordered state ->
  run_events events state h = Some (state', h') ->
  navigator_ordered state'.
Proof.
  induction events as [| [e i] rest IH]; intros state h state' h' Hinv.
  - intros [= <- <-]. exact Hinv.
  - cbn [run_events].
    destruct (progress_face_loop e i state h) as [[s1 h1] |] eqn:Hstep;
      [| discriminate].
    cbn. intros Hrun. eapply IH; [| exact Hrun].
    eapply loop_keeps_order; eauto.
Qed.

End NavigatorInvariant.

Lemma ordered_compare d :
  dates_in_range d -> end_not_before_start d ->
  _progress_datetime_compare (end_datetime d) (start_datetime d) <= 0.
Proof.
  intros [Hs He] Ho. unfold end_not_before_start in Ho.
  rewrite compare_linear by assumption.
  rewrite !minutes_linear in Ho by assumption. lia.
Qed.

Section NavigatorProperties.

Context `{Host}.

(** C4, as the code has it. A field edit on the end page always leaves
    end >= start: the edit is applied, and the end is set to the start
    when the edited end would lie before it.  Leaving the start page for
    the end page runs the same check.  Hence in every run of the loop,
    whenever the navigator is on the end page, the end is not before the
    start. *)
Theorem end_page_edits_keep_order state now inputs events h state2 h2 :
  dates_in_range (dates state) ->
  (current_page state = PROGRESS_PAGE_END ->
   (current_subpage state = PROGRESS_SUBPAGE_DAY ->
    watch_utility_days_in_month (bit_month (end_datetime (dates state)))
      (bit_year (end_datetime (dates state))) <> 0) ->
   exists edited state',
     increment_field (current_subpage state) now (end_datetime (dates state))
     = Some edited /\
     _progress_face_increment_current state now = Some state' /\
     start_datetime (dates state') = start_datetime (dates state) /\
     end_datetime (dates state')
     = (if linearMinutes edited <? linearMinutes (start_datetime (dates state))
        then start_datetime (dates state) else edited) /\
     _progress_datetime_compare (end_datetime (dates state'))
       (start_datetime (dates state')) <= 0) /\
  (current_page state = PROGRESS_PAGE_START ->
   current_subpage state = PROGRESS_SUBPAGE_MINUTE ->
   exists state',
     progress_face_loop EVENT_LIGHT_BUTTON_UP inputs state h = Some (state', h) /\
     current_page state' = PROGRESS_PAGE_END /\
     _progress_datetime_compare (end_datetime (dates state'))
       (start_datetime (dates state')) <= 0) /\
  ((current_page state = PROGRESS_PAGE_END -> end_not_before_start (dates state)) ->
   run_events events state h = Some (state2, h2) ->
   current_page state2 = PROGRESS_PAGE_END ->
   _progress_datetime_compare (end_datetime (dates state2))
     (start_datetime (dates state2)) <= 0).
Proof.
  intros Hr. split; [| split].
  - intros Hp Hday.
    destruct (increment_field_total (current_subpage state) now
                (end_datetime (dates state)) Hday) as [edited Hed].
    assert (Hedr : datetime_in_range edited)
      by (eapply increment_field_in_range; [apply Hr | exact Hed]).
    exists edited.
    rewrite increment_current_unfold.
    unfold _progress_face_get_active_datetime. rewrite Hp, Hed. cbn zeta.
    set (s1 := set_active_datetime (set_dates_changed state true) edited).
    assert (Hd1 : dates s1 = mk_dates (start_datetime (dates state)) edited)
      by (unfold s1, set_active_datetime, set_dates_changed;
          cbn [current_page dates]; rewrite Hp; reflexivity).
    assert (Hr1 : dates_in_range (dates s1))
      by (rewrite Hd1; split; [apply Hr | exact Hedr]).
    destruct (validate_spec s1 Hr1) as (_ & _ & _ & _ & V5 & V6 & V7 & V8).
    rewrite Hd1 in V5, V6. cbn [start_datetime end_datetime] in V5, V6.
    exists (_progress_face_validate_end_datetime s1).
    repeat split; try assumption; try reflexivity.
    apply ordered_compare; assumption.
  - intros Hp Hsp. unfold progress_face_loop. rewrite Hp, Hsp.
    cbn [subpage_to_Z subpage_of_Z Z.add Z.rem set_page current_page].
    change (subpage_of_Z (Z.rem (4 + 1) 5)) with PROGRESS_SUBPAGE_YEAR.
    cbn iota.
    match goal with
    | |- context [_progress_face_validate_end_datetime ?s] =>
        destruct (validate_spec s Hr) as (V1 & _ & _ & _ & _ & _ & V7 & V8);
        exists (_progress_face_validate_end_datetime s)
    end.
    split; [reflexivity |]. split; [exact V1 |].
    apply ordered_compare; assumption.
  - intros Ho Hrun Hp2.
    destruct (run_keeps_order events state h state2 h2 (conj Hr Ho) Hrun)
      as [R2 O2].
    apply ordered_compare; auto.
Qed.

Lemma increment_sets_dates_changed state now state' :
  _progress_face_increment_current state now = Some state' ->
  dates_changed state' = true.
Proof.
  rewrite increment_current_unfold.
  destruct (increment_field _ _ _) as [dt |]; [| discriminate]. cbn zeta.
  destruct (current_page state); intros [= <-]; try reflexivity.
  unfold _progress_face_validate_end_datetime.
  destruct (_ <? 0); reflexivity.
Qed.



(** At the top of the field the store of the year wraps first: from the
    year 4095 the edit stores 4096 into the 12-bit field, which keeps 0,
    and the comparison with the current year plus 100 then sees 0.  No
    default and no edit of the face stores the year 4095; only a record
    the face did not write can hold it. *)
Lemma year_increment_from_4095 now m d hh mm :
  increment_field PROGRESS_SUBPAGE_YEAR now (mk_datetime 4095 m d hh mm)
  = Some (mk_datetime 0 m d hh mm).
Proof.
  assert (Hc : 0 <= current_year_of now)
    by (unfold current_year_of, u16; apply Z.mod_pos_bound; reflexivity).
  unfold increment_field, set_year.
  cbn [bit_year bit_month bit_day bit_hour bit_minute].
  change (bits 12 (4095 + 1)) with 0.
  destruct (Z.gtb_spec 0 (current_year_of now + 100)); [lia | reflexivity].
Qed.

(** C7, on a page change. With quick cycle on, the light button that
    completes a page changes the page and leaves quick cycle on: from the
    start page to the end page, and from the end page to the display
    page, where the tick frequency is set to 1. *)
Theorem page_change_keeps_quick_cycle inputs index d changed h :
  (exists state',
     progress_face_loop EVENT_LIGHT_BUTTON_UP inputs
       (mk_state PROGRESS_PAGE_START PROGRESS_SUBPAGE_MINUTE index d changed true) h
     = Some (state', h) /\
     current_page state' = PROGRESS_PAGE_END /\ quick_cycle state' = true) /\
  (exists h',
     progress_face_loop EVENT_LIGHT_BUTTON_UP inputs
       (mk_state PROGRESS_PAGE_END PROGRESS_SUBPAGE_MINUTE index d changed true) h
     = Some (mk_state PROGRESS_PAGE_DISPLAY PROGRESS_SUBPAGE_YEAR index d false true,
             h') /\
     tick_frequency h' = 1).
Proof.
  split.
  - eexists. split; [reflexivity |].
    unfold _progress_face_validate_end_datetime.
    cbn [set_page current_page current_subpage face_index dates dates_changed
         quick_cycle].
    destruct (_ <? 0); split; reflexivity.
  - eexists. split; reflexivity.
Qed.

(** The release of a long press and the idle timeout leave quick cycle
    off, and set the tick frequency to 4 when it was on. *)
Lemma release_and_timeout_clear_quick_cycle event inputs state h :
  event = EVENT_ALARM_LONG_UP \/ event = EVENT_TIMEOUT ->
  exists state' h',
    progress_face_loop event inputs state h = Some (state', h') /\
    quick_cycle state' = false /\
    (quick_cycle state = true -> tick_frequency h' = 4).
Proof.
  intros [-> | ->]; cbn [progress_face_loop];
    pose proof (abort_quick_cycle_spec state h) as Ha;
    destruct (_progress_face_abort_quick_cycle state h) as [s hh];
    exists s, hh; intuition.
Qed.

End NavigatorProperties.

(** After the page change to the display page with quick cycle on, a tick
    with the alarm button held edits the end date behind the display. *)
Example quick_cycle_edits_in_display :
  option_map fst
    (run_events (H := reference_host)
       [(EVENT_LIGHT_BUTTON_UP, button_held); (EVENT_TICK, button_held)]
       (mk_state PROGRESS_PAGE_END PROGRESS_SUBPAGE_MINUTE 0 scenario_range
          false true)
       empty_host_state)
  = Some (mk_state PROGRESS_PAGE_DISPLAY PROGRESS_SUBPAGE_YEAR 0
            (mk_dates (mk_datetime 2025 1 1 0 0) (mk_datetime 2026 12 31 23 59))
            true true).
Proof. vm_compute. reflexivity. Qed.

(* ===================================================================== *)
(** ** Persistence *)
(* ===================================================================== *)

Lemma datetime_eqb_eq a b : datetime_eqb a b = true <-> a = b.
Proof.
  destruct a as [y1 m1 d1 h1 n1], b as [y2 m2 d2 h2 n2]. unfold datetime_eqb.
  cbn [bit_year bit_month bit_day bit_hour bit_minute].
  rewrite !andb_true_iff, !Z.eqb_eq. split.
  - intros [[[[-> ->] ->] ->] ->]. reflexivity.
  - intros [= -> -> -> -> ->]. repeat split.
Qed.

Lemma memcmp_dates_equal_eq a b : memcmp_dates_equal a b = true <-> a = b.
Proof.
  destruct a as [s1 e1], b as [s2 e2]. unfold memcmp_dates_equal. cbn [start_datetime end_datetime].
  rewrite andb_true_iff, !datetime_eqb_eq. split.
  - intros [-> ->]. reflexivity.
  - intros [= -> ->]. split; reflexivity.
Qed.

(** A write that succeeds is read back. *)
Lemma filesystem_read_after_write h filename d :
  write_succeeds h (write_calls h) = true ->
  filesystem_file_exists (filesystem_write_file h filename d) filename = true /\
  filesystem_read_file (filesystem_write_file h filename d) filename = Some d.
Proof.
  intros Hok.
  unfold filesystem_file_exists, filesystem_read_file, filesystem_write_file.
  cbn [files]. rewrite Hok, lookup_insert_eq. split; reflexivity.
Qed.

(** A write that fails leaves every file as it was. *)
Lemma filesystem_failed_write h filename d :
  write_succeeds h (write_calls h) = false ->
  files (filesystem_write_file h filename d) = files h.
Proof.
  intros Hko. unfold filesystem_write_file. cbn [files]. rewrite Hko. reflexivity.
Qed.

Lemma filesystem_read_exists h filename d :
  filesystem_read_file h filename = Some d ->
  filesystem_file_exists h filename = true.
Proof.
  unfold filesystem_read_file, filesystem_file_exists.
  destruct (files h !! filename); [reflexivity | discriminate].
Qed.

Section Persistence.

Context `{Host}.

(** What one call of [_progress_face_persist_dates] does. *)
Lemma persist_dates_spec state h :
  let filename := dates_filename (face_index state) in
  let '(state', h') := _progress_face_persist_dates state h in
  state' = set_dates_changed state false /\
  (filesystem_read_file h filename = Some (dates state) -> h' = h) /\
  (filesystem_read_file h filename <> Some (dates state) ->
   h' = filesystem_write_file h filename (dates state)).
Proof.
  unfold _progress_face_persist_dates. cbn zeta.
  split; [reflexivity |].
  destruct (filesystem_read_file h _) as [old |] eqn:Hread.
  - rewrite (filesystem_read_exists _ _ _ Hread).
    destruct (memcmp_dates_equal old (dates state)) eqn:Hcmp.
    + split; [reflexivity |]. apply memcmp_dates_equal_eq in Hcmp. congruence.
    + split; [| reflexivity]. intros [= ->].
      assert (memcmp_dates_equal (dates state) (dates state) = true)
        by (apply memcmp_dates_equal_eq; reflexivity). congruence.
  - destruct (filesystem_file_exists h _); split; try reflexivity; discriminate.
Qed.

(** C6, as the code has it. [_progress_face_persist_dates] reads the
    stored record back, compares it with the range in memory by
    [memcmp], and calls the store's write exactly when no record is read
    or the one read differs; it always clears [dates_changed], whether or not the write
    succeeds.  A second call right after it writes nothing when the first
    call left the range in the store (it was there already, or the write
    succeeded); after a write that failed, the second call writes again. *)
Theorem persist_writes_when_record_differs state h :
  let filename := dates_filename (face_index state) in
  let '(state1, h1) := _progress_face_persist_dates state h in
  let '(state2, h2) := _progress_face_persist_dates state1 h1 in
  dates_changed state1 = false /\ dates state1 = dates state /\
  state2 = state1 /\
  (filesystem_read_file h filename = Some (dates state) ->
   h1 = h /\ h2 = h) /\
  (filesystem_read_file h filename <> Some (dates state) ->
   h1 = filesystem_write_file h filename (dates state) /\
   write_calls h1 = S (write_calls h) /\
   (write_succeeds h (write_calls h) = true ->
    filesystem_read_file h1 filename = Some (dates state) /\ h2 = h1) /\
   (write_succeeds h (write_calls h) = false ->
    files h1 = files h /\
    h2 = filesystem_write_file h1 filename (dates state) /\
    write_calls h2 = S (S (write_calls h)))).
Proof.
  cbn zeta.
  pose proof (persist_dates_spec state h) as P1. cbn zeta in P1.
  destruct (_progress_face_persist_dates state h) as [state1 h1].
  destruct P1 as (-> & Psame & Pdiff).
  pose proof (persist_dates_spec (set_dates_changed state false) h1) as P2.
  cbn zeta in P2.
  destruct (_progress_face_persist_dates (set_dates_changed state false) h1)
    as [state2 h2].
  destruct P2 as (-> & P2same & P2diff).
  cbn [set_dates_changed face_index dates dates_changed] in *.
  split; [reflexivity |]. split; [reflexivity |]. split; [reflexivity |].
  split.
  - intros Hs. specialize (Psame Hs). subst h1.
    split; [reflexivity | exact (P2same Hs)].
  - intros Hd. specialize (Pdiff Hd). subst h1.
    split; [reflexivity |]. split; [reflexivity |]. split.
    + intros Hok.
      destruct (filesystem_read_after_write h
                  (dates_filename (face_index state)) (dates state) Hok)
        as [_ Hread].
      split; [exact Hread | exact (P2same Hread)].
    + intros Hko.
      pose proof (filesystem_failed_write h (dates_filename (face_index state))
                    (dates state) Hko) as Hfiles.
      split; [exact Hfiles |].
      assert (Hread : filesystem_read_file
                        (filesystem_write_file h
                           (dates_filename (face_index state)) (dates state))
                        (dates_filename (face_index state))
                      <> Some (dates state))
        by (unfold filesystem_read_file in *; rewrite Hfiles; exact Hd).
      rewrite (P2diff Hread). split; reflexivity.
Qed.

(** C9. Without a context, [progress_face_setup] opens on the start
    page at the year with the default range of the current year when no
    record can be read, and on the display page with the stored range
    when one is read. *)
Theorem setup_opens_by_stored_record watch_face_index instances now h :
  0 <= unit_year now + WATCH_RTC_REFERENCE_YEAR < 4096 ->
  let filename := dates_filename (u8 instances) in
  let current_year := unit_year now + WATCH_RTC_REFERENCE_YEAR in
  let state :=
    fst (progress_face_setup watch_face_index None instances now h) in
  (files h !! filename = None \/ files h !! filename = Some Unreadable ->
   dates state
   = mk_dates (mk_datetime current_year 1 1 0 0)
              (mk_datetime current_year 12 31 23 59) /\
   current_page state = PROGRESS_PAGE_START /\
   current_subpage state = PROGRESS_SUBPAGE_YEAR) /\
  (forall d, files h !! filename = Some (Stored d) ->
   dates state = d /\ current_page state = PROGRESS_PAGE_DISPLAY) /\
  dates_changed state = false /\ quick_cycle state = false /\
  face_index state = u8 instances.
Proof.
  intros Hy filename current_year state.
  assert (Hcy : current_year_of now = current_year).
  { unfold current_year_of, u16, current_year. apply Z.mod_small.
    change (2 ^ 16) with 65536. lia. }
  unfold state, progress_face_setup, _progress_face_load_dates,
    filesystem_file_exists, filesystem_read_file.
  cbn [face_index]. fold filename. rewrite Hcy.
  destruct (files h !! filename) as [[| d] |] eqn:Hf.
  - unfold set_minute, set_hour, set_day, set_month, set_year.
    cbn [bit_year bit_month bit_day bit_hour bit_minute].
    rewrite !(bits_small 12 current_year)
      by (change (2 ^ 12) with 4096; unfold current_year; lia).
    cbn. repeat split; try discriminate; intros; intuition discriminate.
  - cbn. split; [intros [? | ?]; discriminate |].
    split; [intros d' [= <-]; split; reflexivity |]. repeat split.
  - unfold set_minute, set_hour, set_day, set_month, set_year.
    cbn [bit_year bit_month bit_day bit_hour bit_minute].
    rewrite !(bits_small 12 current_year)
      by (change (2 ^ 12) with 4096; unfold current_year; lia).
    cbn. repeat split; try discriminate; intros; intuition discriminate.
Qed.

End Persistence.

(** On a store whose writes fail, two calls in a row both call the
    write, the flag is cleared and nothing is stored. *)
Example persist_twice_failed_write :
  let state :=
    mk_state PROGRESS_PAGE_DISPLAY PROGRESS_SUBPAGE_YEAR 0 scenario_range true false in
  let '(state1, h1) := _progress_face_persist_dates state failing_host_state in
  let '(state2, h2) := _progress_face_persist_dates state1 h1 in
  write_calls h1 = 1%nat /\ write_calls h2 = 2%nat /\
  dates_changed state2 = false /\
  filesystem_read_file h2 "prog000.u64" = None.
Proof. vm_compute. repeat split. Qed.

(** C6 as stated fails when the stored record already equals the range:
    two calls in a row issue no write at all. *)
Lemma persist_twice_without_write :
  let state :=
    mk_state PROGRESS_PAGE_DISPLAY PROGRESS_SUBPAGE_YEAR 0 scenario_range true false in
  let '(state1, h1) :=
    _progress_face_persist_dates state stored_host in
  let '(state2, h2) :=
    _progress_face_persist_dates state1 h1 in
  (write_calls h2 - write_calls stored_host)%nat = 0%nat /\
  (write_calls h2 - write_calls stored_host)%nat <> 1%nat.
Proof. vm_compute. split; [reflexivity | discriminate]. Qed.

Ltac by_computation := repeat split; vm_compute; congruence.

(** C1 as stated fails before the common instant: with start = end =
    2025-12-31 23:59 and the clock at 2025-07-02 12:00 the value is 0. *)
Lemma equal_range_shows_zero_before :
  linearMinutes (end_datetime (dates instant_state))
  = linearMinutes (start_datetime (dates instant_state)) /\
  _progress_face_update_display (H := reference_host) instant_state scenario_now
  <> 1000000.
Proof. split; [reflexivity | vm_compute; discriminate]. Qed.

Lemma equal_range_progress_witness :
  dates_in_range (dates instant_state) /\
  linearMinutes (end_datetime (dates instant_state))
  = linearMinutes (start_datetime (dates instant_state)) /\
  _progress_face_update_display (H := reference_host) instant_state scenario_now = 0.
Proof.
  assert (Hr : dates_in_range (dates instant_state)) by by_computation.
  split; [exact Hr |]. split; [reflexivity |].
  exact (equal_range_progress (H := reference_host) instant_state scenario_now
           Hr eq_refl).
Defined.

Lemma progress_matches_reference_witness :
  dates_in_range (dates scenario_state) /\
  linearMinutes (start_datetime (dates scenario_state))
  < linearMinutes (end_datetime (dates scenario_state)) /\
  _progress_face_update_display (H := reference_host) scenario_state scenario_now
  = computeProgressFixedPoint (mk_datetime 2025 1 1 0 0)
      (mk_datetime 2025 12 31 23 59) (mk_datetime 2025 7 2 12 0).
Proof.
  assert (Hr : dates_in_range (dates scenario_state)) by by_computation.
  split; [exact Hr |]. split; [reflexivity |].
  exact (proj1 (progress_matches_reference (H := reference_host) scenario_state
                  scenario_now Hr eq_refl)).
Defined.

Lemma progress_monotone_bounded_witness :
  dates_in_range (dates scenario_state) /\
  linearMinutes (start_datetime (dates scenario_state))
  < linearMinutes (end_datetime (dates scenario_state)) /\
  linearMinutes (current_dt_of (H := reference_host) scenario_now)
  <= linearMinutes (current_dt_of (H := reference_host) scenario_later) /\
  _progress_face_update_display (H := reference_host) scenario_state scenario_now
  <= _progress_face_update_display (H := reference_host) scenario_state
       scenario_later.
Proof.
  assert (Hr : dates_in_range (dates scenario_state)) by by_computation.
  assert (Hle : linearMinutes (current_dt_of (H := reference_host) scenario_now)
                <= linearMinutes (current_dt_of (H := reference_host) scenario_later))
    by (vm_compute; congruence).
  split; [exact Hr |]. split; [reflexivity |]. split; [exact Hle |].
  exact (proj1 (progress_monotone_bounded (H := reference_host) scenario_state
                  scenario_now scenario_later Hr eq_refl Hle)).
Defined.

(** C4 as stated fails on the start page: the year edit moves the start
    to 2026-01-01 00:00 while the end stays at 2025-12-31 23:59, and no
    check runs. *)
Lemma start_page_edit_breaks_order :
  _progress_face_increment_current (H := reference_host) first_run_state
    scenario_now
  = Some (mk_state PROGRESS_PAGE_START PROGRESS_SUBPAGE_YEAR 0
            (mk_dates (mk_datetime 2026 1 1 0 0) (mk_datetime 2025 12 31 23 59))
            true false) /\
  0 < _progress_datetime_compare (mk_datetime 2025 12 31 23 59)
        (mk_datetime 2026 1 1 0 0).
Proof. split; vm_compute; reflexivity. Qed.

Lemma end_page_edits_keep_order_witness :
  dates_in_range (dates end_page_state) /\
  exists edited state',
    increment_field (H := reference_host) PROGRESS_SUBPAGE_MONTH scenario_now
      (mk_datetime 2025 12 31 23 59) = Some edited /\
    _progress_face_increment_current (H := reference_host) end_page_state
      scenario_now = Some state' /\
    start_datetime (dates state') = mk_datetime 2025 12 1 0 0 /\
    end_datetime (dates state')
    = (if linearMinutes edited <? linearMinutes (mk_datetime 2025 12 1 0 0)
       then mk_datetime 2025 12 1 0 0 else edited) /\
    _progress_datetime_compare (end_datetime (dates state'))
      (start_datetime (dates state')) <= 0.
Proof.
  assert (Hr : dates_in_range (dates end_page_state)) by by_computation.
  split; [exact Hr |].
  refine (proj1 (end_page_edits_keep_order (H := reference_host) end_page_state
                   scenario_now button_held [] empty_host_state end_page_state
                   empty_host_state Hr) eq_refl _).
  intros Hsub. discriminate Hsub.
Defined.


Lemma setup_opens_by_stored_record_witness :
  0 <= unit_year scenario_now + 2020 < 4096 /\
  current_page
    (fst (progress_face_setup (H := reference_host) 0 None 0 scenario_now
            empty_host_state))
  = PROGRESS_PAGE_START.
Proof.
  assert (Hy : 0 <= unit_year scenario_now + 2020 < 4096) by by_computation.
  split; [exact Hy |].
  refine (proj1 (proj2 (proj1 (setup_opens_by_stored_record
            (H := reference_host) 0 0 scenario_now empty_host_state Hy) _))).
  left. reflexivity.
Defined.

(** Scenario E: the first setup opens on the start page; after a full
    edit cycle has stored the range, a setup opens on the display page. *)
Example scenario_e :
  current_page
    (fst (progress_face_setup (H := reference_host) 0 None 0 scenario_now
            empty_host_state)) = PROGRESS_PAGE_START /\
  current_page
    (fst (progress_face_setup (H := reference_host) 0 None 0 scenario_now
            stored_host)) = PROGRESS_PAGE_DISPLAY.
Proof. split; vm_compute; reflexivity. Qed.

(** Scenario F: the month edit of the end date from December to January
    puts it before the start, and the end snaps to the start. *)
Example scenario_f :
  option_map dates
    (_progress_face_increment_current (H := reference_host) end_page_state
       scenario_now)
  = Some (mk_dates (mk_datetime 2025 12 1 0 0) (mk_datetime 2025 12 1 0 0)).
Proof. vm_compute. reflexivity. Qed.

(** Scenario D: the year edit past the current year plus 100 goes to the
    current year minus 100. *)
Example scenario_d :
  increment_field (H := reference_host) PROGRESS_SUBPAGE_YEAR scenario_now
    (mk_datetime 2125 1 1 0 0)
  = Some (mk_datetime 1925 1 1 0 0).
Proof. vm_compute. reflexivity. Qed.

Example filename_of_instance_7 : dates_filename 7 = "prog007.u64"%string.
Proof. reflexivity. Qed.

(* ===================================================================== *)
(** ** Formatted texts *)
(* ===================================================================== *)

Lemma string_length_append (s t : string) :
  String.length (String.append s t) = (String.length s + String.length t)%nat.
Proof. induction s as [| c s IH]; simpl; [reflexivity | f_equal; exact IH]. Qed.

Lemma padding_length n c : String.length (padding n c) = n.
Proof. induction n as [| n IH]; simpl; [reflexivity | f_equal; exact IH]. Qed.

Lemma pad_left_length c width s :
  String.length (pad_left c width s) = Nat.max width (String.length s).
Proof. unfold pad_left. rewrite string_length_append, padding_length. lia. Qed.

(** A value below 10^k prints with at least one and at most k digits. *)
Lemma decimal_digits_length fuel : forall k n,
  (1 <= k <= fuel)%nat -> 0 <= n < 10 ^ Z.of_nat k ->
  (1 <= String.length (decimal_digits fuel n) <= k)%nat.
Proof.
  induction fuel as [| fuel IH]; intros k n Hk Hn; [lia |].
  cbn [decimal_digits]. destruct (Z.ltb_spec n 10) as [Hlt | Hge].
  - cbn. lia.
  - rewrite string_length_append. cbn [String.length].
    destruct k as [| [| k]]; [lia | change (10 ^ Z.of_nat 1) with 10 in Hn; lia |].
    specialize (IH (S k) (n ÷ 10) ltac:(lia)).
    assert (Hq : 0 <= n ÷ 10 < 10 ^ Z.of_nat (S k)).
    { rewrite Z.quot_div_nonneg by lia.
      replace (Z.of_nat (S (S k))) with (Z.succ (Z.of_nat (S k))) in Hn by lia.
      rewrite Z.pow_succ_r in Hn by lia.
      split; [apply Z.div_pos; lia | apply Z.div_lt_upper_bound; lia]. }
    specialize (IH Hq). lia.
Qed.

Lemma digit_value_char d : 0 <= d < 10 -> digit_value (digit_char d) = d.
Proof.
  intros Hd. unfold digit_value, digit_char.
  rewrite nat_ascii_embedding by lia. lia.
Qed.

Lemma decimal_value_from_snoc s : forall acc c,
  decimal_value_from acc (String.append s (String c EmptyString))
  = decimal_value_from acc s * 10 + digit_value c.
Proof. induction s as [| a s IH]; intros acc c; cbn; [reflexivity | apply IH]. Qed.

(** Reading the printed digits gives the value back. *)
Lemma decimal_digits_value fuel : forall k n,
  (1 <= k <= fuel)%nat -> 0 <= n < 10 ^ Z.of_nat k ->
  decimal_value (decimal_digits fuel n) = n.
Proof.
  induction fuel as [| fuel IH]; intros k n Hk Hn; [lia |].
  cbn [decimal_digits]. destruct (Z.ltb_spec n 10) as [Hlt | Hge].
  - unfold decimal_value. cbn. apply digit_value_char. lia.
  - unfold decimal_value. rewrite decimal_value_from_snoc.
    destruct k as [| [| k]]; [lia | change (10 ^ Z.of_nat 1) with 10 in Hn; lia |].
    assert (Hq : 0 <= n ÷ 10 < 10 ^ Z.of_nat (S k)).
    { rewrite Z.quot_div_nonneg by lia.
      replace (Z.of_nat (S (S k))) with (Z.succ (Z.of_nat (S k))) in Hn by lia.
      rewrite Z.pow_succ_r in Hn by lia.
      split; [apply Z.div_pos; lia | apply Z.div_lt_upper_bound; lia]. }
    fold (decimal_value (decimal_digits fuel (n ÷ 10))).
    rewrite (IH (S k) (n ÷ 10) ltac:(lia) Hq).
    rewrite digit_value_char by (apply Z.mod_pos_bound; lia).
    rewrite Z.quot_div_nonneg by lia. pose proof (Z.div_mod n 10 ltac:(lia)). lia.
Qed.

Lemma decimal_value_zero_padding n : forall s,
  decimal_value (String.append (padding n "0") s) = decimal_value s.
Proof. induction n as [| n IH]; intros s; [reflexivity | exact (IH s)]. Qed.

Lemma sprintf_02u_length v : 0 <= v < 100 -> String.length (sprintf_02u v) = 2%nat.
Proof.
  intros Hv. unfold sprintf_02u. rewrite pad_left_length.
  pose proof (decimal_digits_length 20 2 v ltac:(lia) Hv). unfold print_unsigned. lia.
Qed.

Lemma percentage_of_minutes_nonneg s e c :
  0 <= snd (percentage_of_minutes s e c).
Proof.
  unfold percentage_of_minutes.
  destruct (c <=? s); [cbn; lia |]. destruct (c >=? e); [cbn; lia |].
  destruct (Z.gtb_spec (u64_sub e s) 0); cbn [snd]; [| lia].
  unfold u64_div. apply Z.quot_pos; [| lia].
  unfold u64_mul, u64. apply Z.mod_pos_bound. reflexivity.
Qed.

Section DisplayProperties.

Context `{Host}.

(** X1. Below 100% the face hands the bottom zone exactly one text: six
    decimal digits (so the seven-byte buffer is never overrun) that read
    back as the computed value.  From 100% on it hands over the literal
    pair "1000000" / "100   " instead and formats no number. *)
Theorem progress_text_six_digits state now lcd :
  let v := _progress_face_update_display state now in
  let calls := _progress_face_update_display_calls state now lcd in
  (v < 1000000 ->
   bottom_texts calls = [sprintf_06llu v] /\
   String.length (sprintf_06llu v) = 6%nat /\
   decimal_value (sprintf_06llu v) = v) /\
  (1000000 <= v ->
   bottom_texts calls = [] /\
   In (watch_display_text_with_fallback WATCH_POSITION_BOTTOM "1000000" "100   ")
      calls).
Proof.
  intros v calls.
  assert (Hv : 0 <= v) by apply percentage_of_minutes_nonneg.
  unfold calls, _progress_face_update_display_calls, update_display_calls.
  fold v. split; intros Hlt.
  - destruct (Z.geb_spec v 1000000) as [? | _]; [lia |].
    assert (Hr : 0 <= v < 10 ^ Z.of_nat 6) by (change (10 ^ Z.of_nat 6) with 1000000; lia).
    split; [destruct lcd; reflexivity |]. split.
    + unfold sprintf_06llu. rewrite pad_left_length.
      pose proof (decimal_digits_length 20 6 v ltac:(lia) Hr).
      unfold print_unsigned. lia.
    + unfold sprintf_06llu, pad_left. rewrite decimal_value_zero_padding.
      apply (decimal_digits_value 20 6 v ltac:(lia) Hr).
  - destruct (Z.geb_spec v 1000000) as [_ | ?]; [| lia].
    split; [destruct lcd; reflexivity |]. destruct lcd; cbn; auto.
Qed.

End DisplayProperties.

(** X2. While a date is edited, every text handed to the bottom zone has
    exactly four characters, whatever the subpage and the blink phase, so
    the seven-byte buffer is never overrun; during quick cycle the blanking
    text is never issued. *)
Theorem edit_text_four_characters state subsecond :
  datetime_in_range (_progress_face_get_active_datetime state) ->
  String.length (current_value_text state) = 4%nat /\
  Forall (fun text => String.length text = 4%nat)
    (bottom_texts (_progress_face_display_current_value state subsecond)) /\
  (quick_cycle state = true ->
   length (_progress_face_display_current_value state subsecond) = 2%nat).
Proof.
  intros (Hy & Hm & Hd & Hh & Hn).
  assert (Htext : String.length (current_value_text state) = 4%nat).
  { unfold current_value_text. destruct (current_subpage state).
    - unfold sprintf_4u. rewrite pad_left_length.
      pose proof (decimal_digits_length 20 4 (bit_year
        (_progress_face_get_active_datetime state)) ltac:(lia)
        ltac:(change (10 ^ Z.of_nat 4) with 10000; lia)).
      unfold print_unsigned. lia.
    - rewrite string_length_append, !sprintf_02u_length by lia. reflexivity.
    - rewrite string_length_append, !sprintf_02u_length by lia. reflexivity.
    - rewrite string_length_append, !sprintf_02u_length by lia. reflexivity.
    - rewrite string_length_append, !sprintf_02u_length by lia. reflexivity. }
  split; [exact Htext |]. split.
  - unfold _progress_face_display_current_value.
    destruct (negb (Z.rem subsecond 2 =? 0) && negb (quick_cycle state));
      destruct (current_subpage state); cbn [bottom_texts flat_map app];
      repeat constructor; exact Htext.
  - intros Hq. unfold _progress_face_display_current_value. rewrite Hq.
    rewrite andb_false_r. reflexivity.
Qed.

Lemma edit_text_four_characters_witness :
  datetime_in_range (_progress_face_get_active_datetime end_page_state) /\
  current_value_text end_page_state = "1231"%string /\
  String.length (current_value_text end_page_state) = 4%nat.
Proof.
  assert (Hr : datetime_in_range (_progress_face_get_active_datetime end_page_state))
    by (repeat split; vm_compute; congruence).
  split; [exact Hr |]. split; [reflexivity |].
  exact (proj1 (edit_text_four_characters end_page_state 1 Hr)).
Defined.

Example progress_text_half :
  sprintf_06llu 500000 = "500000"%string /\ sprintf_06llu 42 = "000042"%string /\
  sprintf_4u 987 = " 987"%string.
Proof. repeat split. Qed.

(* ===================================================================== *)
(** ** The loop, event by event *)
(* ===================================================================== *)

Lemma some_pair_inv {A B : Type} (a a' : A) (b b' : B) :
  Some (a, b) = Some (a', b') -> a' = a /\ b' = b.
Proof. intros [= -> ->]. split; reflexivity. Qed.

(** After [_progress_face_persist_dates] the store holds the range if it
    held it before or the write succeeds. *)
Lemma persist_store_holds_dates state h :
  filesystem_read_file h (dates_filename (face_index state)) = Some (dates state)
  \/ write_succeeds h (write_calls h) = true ->
  filesystem_read_file (snd (_progress_face_persist_dates state h))
    (dates_filename (face_index state)) = Some (dates state).
Proof.
  intros Hsaved.
  pose proof (persist_dates_spec state h) as P. cbn zeta in P.
  destruct (_progress_face_persist_dates state h) as [s1 h1].
  destruct P as (_ & Psame & Pdiff). cbn [snd].
  destruct (filesystem_read_file h (dates_filename (face_index state)))
    as [old |] eqn:Hread.
  - destruct (memcmp_dates_equal old (dates state)) eqn:Hcmp.
    + apply memcmp_dates_equal_eq in Hcmp. subst old.
      rewrite (Psame eq_refl). exact Hread.
    + assert (Hne : Some old <> Some (dates state)).
      { intros [= ->].
        assert (memcmp_dates_equal (dates state) (dates state) = true)
          by (apply memcmp_dates_equal_eq; reflexivity). congruence. }
      destruct Hsaved as [Hs | Hok]; [contradiction |].
      rewrite (Pdiff Hne). apply filesystem_read_after_write. exact Hok.
  - destruct Hsaved as [Hs | Hok]; [discriminate |].
    rewrite Pdiff by discriminate. apply filesystem_read_after_write. exact Hok.
Qed.

(** When it has to write and the write fails, it leaves every file as it
    was. *)
Lemma persist_failed_write_keeps_files state h :
  filesystem_read_file h (dates_filename (face_index state)) <> Some (dates state) ->
  write_succeeds h (write_calls h) = false ->
  files (snd (_progress_face_persist_dates state h)) = files h.
Proof.
  intros Hd Hko.
  pose proof (persist_dates_spec state h) as P. cbn zeta in P.
  destruct (_progress_face_persist_dates state h) as [s1 h1].
  destruct P as (_ & _ & Pdiff). cbn [snd].
  rewrite (Pdiff Hd). apply filesystem_failed_write. exact Hko.
Qed.

Lemma persist_other_files state h name :
  name <> dates_filename (face_index state) ->
  files (snd (_progress_face_persist_dates state h)) !! name = files h !! name.
Proof.
  intros Hne. unfold _progress_face_persist_dates. cbn zeta. cbn [snd].
  match goal with
  | |- files (if ?b then _ else _) !! _ = _ => destruct b
  end; [| reflexivity].
  unfold filesystem_write_file. cbn [files].
  destruct (write_succeeds h (write_calls h)); [| reflexivity].
  apply lookup_insert_ne. congruence.
Qed.

Lemma persist_keeps_tick state h :
  tick_frequency (snd (_progress_face_persist_dates state h)) = tick_frequency h.
Proof.
  unfold _progress_face_persist_dates. cbn zeta. cbn [snd].
  match goal with
  | |- tick_frequency (if ?b then _ else _) = _ => destruct b
  end; reflexivity.
Qed.

Section LoopProperties.

Context `{Host}.

Lemma increment_current_none state now :
  _progress_face_increment_current state now = None <->
  current_subpage state = PROGRESS_SUBPAGE_DAY /\
  watch_utility_days_in_month
    (bit_month (_progress_face_get_active_datetime state))
    (bit_year (_progress_face_get_active_datetime state)) = 0.
Proof.
  rewrite increment_current_unfold.
  set (dt := _progress_face_get_active_datetime state).
  destruct (Z.eq_dec (watch_utility_days_in_month (bit_month dt) (bit_year dt)) 0)
    as [Hz | Hnz].
  - destruct (current_subpage state) eqn:Hsp;
      try (destruct (increment_field_total (current_subpage state) now dt
                       ltac:(rewrite Hsp; discriminate)) as [dt' Hdt'];
           rewrite Hsp in Hdt'; rewrite Hdt'; cbn zeta;
           destruct (current_page state);
           (split; [discriminate | intros [? _]; discriminate])).
    unfold increment_field, c_rem. rewrite Hz. cbn. tauto.
  - destruct (increment_field_total (current_subpage state) now dt
                ltac:(intros _; exact Hnz)) as [dt' Hdt'].
    rewrite Hdt'. cbn zeta. destruct (current_page state);
      (split; [discriminate | intros [_ ?]; contradiction]).
Qed.

Lemma increment_current_face_index state now state' :
  _progress_face_increment_current state now = Some state' ->
  face_index state' = face_index state.
Proof.
  rewrite increment_current_unfold.
  destruct (increment_field _ _ _) as [dt |]; [| discriminate]. cbn zeta.
  destruct (current_page state); intros [= <-]; try reflexivity.
  unfold _progress_face_validate_end_datetime.
  destruct (_ <? 0); reflexivity.
Qed.

(** The light button, case by case. *)
Lemma light_button_up_unfold inputs state h :
  progress_face_loop EVENT_LIGHT_BUTTON_UP inputs state h
  = Some
      match current_page state, current_subpage state with
      | PROGRESS_PAGE_DISPLAY, _ => (state, h)
      | PROGRESS_PAGE_START, PROGRESS_SUBPAGE_MINUTE =>
          (_progress_face_validate_end_datetime
             (set_page state PROGRESS_PAGE_END PROGRESS_SUBPAGE_YEAR), h)
      | PROGRESS_PAGE_END, PROGRESS_SUBPAGE_MINUTE =>
          (set_dates_changed
             (set_page state PROGRESS_PAGE_DISPLAY PROGRESS_SUBPAGE_YEAR) false,
           movement_request_tick_frequency
             (snd (_progress_face_persist_dates
                     (set_page state PROGRESS_PAGE_DISPLAY PROGRESS_SUBPAGE_YEAR) h))
             1)
      | page, subpage =>
          (set_page state page (subpage_of_Z (subpage_to_Z subpage + 1)), h)
      end.
Proof.
  unfold progress_face_loop.
  destruct (current_page state) eqn:Hp; [reflexivity | |];
    destruct (current_subpage state) eqn:Hsp; reflexivity.
Qed.

(** X3. On the display page with quick cycle off, no event changes the
    state or the host except the long press of the alarm button, which
    opens the start page at the year and requests 4 Hz; the dates stay. *)
Theorem display_page_is_inert event inputs state h :
  current_page state = PROGRESS_PAGE_DISPLAY ->
  quick_cycle state = false ->
  progress_face_loop event inputs state h
  = Some (match event with
          | EVENT_ALARM_LONG_PRESS =>
              (mk_state PROGRESS_PAGE_START PROGRESS_SUBPAGE_YEAR
                 (face_index state) (dates state) (dates_changed state) false,
               movement_request_tick_frequency h 4)
          | _ => (state, h)
          end).
Proof.
  intros Hp Hq. unfold progress_face_loop, _progress_face_abort_quick_cycle.
  rewrite Hp, Hq. destruct event; try reflexivity.
  unfold set_page. rewrite Hq. reflexivity.
Qed.

(** X4. The loop never changes the instance index and never touches the
    file of another name; it calls the store's write only when the light
    button completes the end page, and then only if the stored record is
    not already the range. *)
Theorem loop_writes_only_on_completion event inputs state h state' h' :
  progress_face_loop event inputs state h = Some (state', h') ->
  face_index state' = face_index state /\
  (forall name, name <> dates_filename (face_index state) ->
                files h' !! name = files h !! name) /\
  (write_calls h' <> write_calls h ->
   event = EVENT_LIGHT_BUTTON_UP /\
   current_page state = PROGRESS_PAGE_END /\
   current_subpage state = PROGRESS_SUBPAGE_MINUTE /\
   filesystem_read_file h (dates_filename (face_index state))
   <> Some (dates state)).
Proof.
  unfold progress_face_loop.
  assert (Habort : forall s hh,
    face_index (fst (_progress_face_abort_quick_cycle s hh)) = face_index s /\
    current_page (fst (_progress_face_abort_quick_cycle s hh)) = current_page s /\
    files (snd (_progress_face_abort_quick_cycle s hh)) = files hh /\
    write_calls (snd (_progress_face_abort_quick_cycle s hh)) = write_calls hh).
  { intros s hh. unfold _progress_face_abort_quick_cycle.
    destruct (quick_cycle s); cbn; auto. }
  assert (Hedit : forall s s' hh now,
    face_index s = face_index state -> files hh = files h ->
    write_calls hh = write_calls h ->
    _progress_face_increment_current s now = Some s' ->
    face_index s' = face_index state /\
    (forall name, name <> dates_filename (face_index state) ->
                  files hh !! name = files h !! name) /\
    (write_calls hh <> write_calls h ->
     event = EVENT_LIGHT_BUTTON_UP /\
     current_page state = PROGRESS_PAGE_END /\
     current_subpage state = PROGRESS_SUBPAGE_MINUTE /\
     filesystem_read_file h (dates_filename (face_index state))
     <> Some (dates state))).
  { intros s s' hh now Hi Hf Hw Hs.
    rewrite (increment_current_face_index s now s' Hs), Hf.
    split; [exact Hi |]. split; [reflexivity |]. intros Hc. contradiction. }
  assert (Hsame : forall s hh,
    face_index s = face_index state -> files hh = files h ->
    write_calls hh = write_calls h ->
    face_index s = face_index state /\
    (forall name, name <> dates_filename (face_index state) ->
                  files hh !! name = files h !! name) /\
    (write_calls hh <> write_calls h ->
     event = EVENT_LIGHT_BUTTON_UP /\
     current_page state = PROGRESS_PAGE_END /\
     current_subpage state = PROGRESS_SUBPAGE_MINUTE /\
     filesystem_read_file h (dates_filename (face_index state))
     <> Some (dates state))).
  { intros s hh Hi Hf Hw. rewrite Hf.
    split; [exact Hi |]. split; [reflexivity |]. intros Hc. contradiction. }
  destruct event.
  - intros [= <- <-]. apply Hsame; reflexivity.
  - destruct (quick_cycle state) eqn:Hq; [| intros [= <- <-]; apply Hsame; reflexivity].
    destruct (HAL_GPIO_BTN_ALARM_read inputs).
    + destruct (_progress_face_increment_current state _) as [s |] eqn:Hs;
        [| discriminate]. cbn. intros [= <- <-].
      apply (Hedit state s h _ eq_refl eq_refl eq_refl Hs).
    + destruct (Habort state h) as (A1 & _ & A3 & A4).
      destruct (_progress_face_abort_quick_cycle state h) as [s hh].
      intros [= <- <-]. apply Hsame; assumption.
  - destruct (quick_cycle state) eqn:Hq; [| intros [= <- <-]; apply Hsame; reflexivity].
    destruct (HAL_GPIO_BTN_ALARM_read inputs).
    + destruct (_progress_face_increment_current state _) as [s |] eqn:Hs;
        [| discriminate]. cbn. intros [= <- <-].
      apply (Hedit state s h _ eq_refl eq_refl eq_refl Hs).
    + destruct (Habort state h) as (A1 & _ & A3 & A4).
      destruct (_progress_face_abort_quick_cycle state h) as [s hh].
      intros [= <- <-]. apply Hsame; assumption.
  - intros [= <- <-]. apply Hsame; reflexivity.
  - fold (progress_face_loop EVENT_LIGHT_BUTTON_UP inputs state h).
    rewrite light_button_up_unfold.
    destruct (current_page state) eqn:Hp.
    + intros [= <- <-]. apply Hsame; reflexivity.
    + destruct (current_subpage state) eqn:Hsp; intros [= <- <-];
        try (apply Hsame; reflexivity).
      unfold _progress_face_validate_end_datetime.
      destruct (_ <? 0); apply Hsame; reflexivity.
    + destruct (current_subpage state) eqn:Hsp; intros Heq;
        destruct (some_pair_inv _ _ _ _ Heq) as [-> ->]; clear Heq;
        try (apply Hsame; reflexivity).
      set (s1 := set_page state PROGRESS_PAGE_DISPLAY PROGRESS_SUBPAGE_YEAR).
      split; [reflexivity |]. split.
      { intros name Hn. exact (persist_other_files s1 h name Hn). }
      intros Hw. repeat split; try reflexivity.
      intros Hread. apply Hw.
      pose proof (persist_dates_spec s1 h) as P. cbn zeta in P.
      destruct (_progress_face_persist_dates s1 h) as [s2 h2].
      destruct P as (_ & Psame & _).
      cbn [snd movement_request_tick_frequency write_calls].
      rewrite (Psame Hread). reflexivity.
  - destruct (current_page state) eqn:Hp.
    + intros [= <- <-]. apply Hsame; reflexivity.
    + destruct (Habort state h) as (A1 & _ & A3 & A4).
      destruct (_progress_face_abort_quick_cycle state h) as [s hh].
      destruct (_progress_face_increment_current s _) as [s' |] eqn:Hs;
        [| discriminate]. cbn. intros [= <- <-].
      apply (Hedit s s' hh _ A1 A3 A4 Hs).
    + destruct (Habort state h) as (A1 & _ & A3 & A4).
      destruct (_progress_face_abort_quick_cycle state h) as [s hh].
      destruct (_progress_face_increment_current s _) as [s' |] eqn:Hs;
        [| discriminate]. cbn. intros [= <- <-].
      apply (Hedit s s' hh _ A1 A3 A4 Hs).
  - destruct (current_page state); intros [= <- <-]; apply Hsame; reflexivity.
  - destruct (Habort state h) as (A1 & _ & A3 & A4).
    destruct (_progress_face_abort_quick_cycle state h) as [s hh].
    intros [= <- <-]. apply Hsame; assumption.
  - destruct (Habort state h) as (A1 & _ & A3 & A4).
    destruct (_progress_face_abort_quick_cycle state h) as [s hh].
    intros [= <- <-]. apply Hsame; assumption.
  - intros [= <- <-]. apply Hsame; reflexivity.
Qed.

(** X5. A call of the loop is undefined in exactly one situation: the
    event makes it edit the day while the host reports zero days for the
    month and year of the active date (the remainder by zero). *)
Theorem loop_undefined_only_for_zero_days event inputs state h :
  progress_face_loop event inputs state h = None <->
  edits_field event inputs state = true /\
  current_subpage state = PROGRESS_SUBPAGE_DAY /\
  watch_utility_days_in_month
    (bit_month (_progress_face_get_active_datetime state))
    (bit_year (_progress_face_get_active_datetime state)) = 0.
Proof.
  assert (Hbind : forall s now (hh : host_state),
    (s' ← _progress_face_increment_current s now; Some (s', hh)) = None <->
    _progress_face_increment_current s now = None).
  { intros s now hh. destruct (_progress_face_increment_current s now); cbn;
      split; congruence. }
  assert (Hno : forall (x : progress_state_t * host_state) (P : Prop),
    Some x = None <-> false = true /\ P)
    by (intros; split; [discriminate | intros [? _]; discriminate]).
  unfold progress_face_loop, edits_field.
  destruct event; try apply Hno.
  - destruct (quick_cycle state); [| apply Hno].
    destruct (HAL_GPIO_BTN_ALARM_read inputs); [| apply Hno].
    rewrite Hbind, increment_current_none. cbn. tauto.
  - destruct (quick_cycle state); [| apply Hno].
    destruct (HAL_GPIO_BTN_ALARM_read inputs); [| apply Hno].
    rewrite Hbind, increment_current_none. cbn. tauto.
  - fold (progress_face_loop EVENT_LIGHT_BUTTON_UP inputs state h).
    rewrite light_button_up_unfold. apply Hno.
  - destruct (current_page state) eqn:Hp; [apply Hno | |].
    + unfold _progress_face_abort_quick_cycle.
      destruct (quick_cycle state) eqn:Hq; rewrite Hbind, increment_current_none;
        unfold _progress_face_get_active_datetime, set_quick_cycle;
        cbn [current_page current_subpage dates]; rewrite Hp; tauto.
    + unfold _progress_face_abort_quick_cycle.
      destruct (quick_cycle state) eqn:Hq; rewrite Hbind, increment_current_none;
        unfold _progress_face_get_active_datetime, set_quick_cycle;
        cbn [current_page current_subpage dates]; rewrite Hp; tauto.
  - destruct (current_page state); apply Hno.
Qed.

End LoopProperties.

(* ===================================================================== *)
(** ** Navigation and persistence, composed *)
(* ===================================================================== *)

(** The three digits of the file name determine the index. *)
Lemma digit_char_inj a b :
  0 <= a < 10 -> 0 <= b < 10 -> digit_char a = digit_char b -> a = b.
Proof.
  intros Ha Hb Heq. rewrite <- (digit_value_char a Ha), <- (digit_value_char b Hb).
  rewrite Heq. reflexivity.
Qed.

Lemma dates_filename_inj i j :
  0 <= i < 1000 -> 0 <= j < 1000 ->
  dates_filename i = dates_filename j -> i = j.
Proof.
  intros Hi Hj Heq. unfold dates_filename, format_03d in Heq.
  cbn [String.append] in Heq.
  injection Heq as H2 H1 H0.
  apply digit_char_inj in H2, H1, H0;
    try (apply Z.mod_pos_bound; lia).
  rewrite !Z.quot_div_nonneg in * by lia.
  Z.div_mod_to_equations. lia.
Qed.

Lemma run_events_cons `{Host} e i rest state h state1 h1 :
  progress_face_loop e i state h = Some (state1, h1) ->
  run_events ((e, i) :: rest) state h = run_events rest state1 h1.
Proof. intros Hs. cbn [run_events]. rewrite Hs. reflexivity. Qed.

Ltac light_step s' h' :=
  rewrite (run_events_cons _ _ _ _ _ s' h')
    by (rewrite light_button_up_unfold; reflexivity);
  cbn [repeat].

Section Composition.

Context `{Host}.

(** X6. Ten releases of the light button from the start page at the year
    walk through both pages and end on the display page: the start is
    kept, the end is the stored end or, if that lay before the start, the
    start; [dates_changed] is clear and 1 Hz is requested.  The store
    holds the range afterwards if it held it before or the write
    succeeds; if the write fails the files are left as they were. *)
Theorem full_edit_cycle_reaches_display inputs state h :
  dates_in_range (dates state) ->
  current_page state = PROGRESS_PAGE_START ->
  current_subpage state = PROGRESS_SUBPAGE_YEAR ->
  exists state' h',
    run_events (repeat (EVENT_LIGHT_BUTTON_UP, inputs) 10) state h
    = Some (state', h') /\
    current_page state' = PROGRESS_PAGE_DISPLAY /\
    current_subpage state' = PROGRESS_SUBPAGE_YEAR /\
    start_datetime (dates state') = start_datetime (dates state) /\
    end_datetime (dates state')
    = (if linearMinutes (end_datetime (dates state))
          <? linearMinutes (start_datetime (dates state))
       then start_datetime (dates state) else end_datetime (dates state)) /\
    dates_changed state' = false /\
    quick_cycle state' = quick_cycle state /\
    (filesystem_read_file h (dates_filename (face_index state))
     = Some (dates state')
     \/ write_succeeds h (write_calls h) = true ->
     filesystem_read_file h' (dates_filename (face_index state))
     = Some (dates state')) /\
    (filesystem_read_file h (dates_filename (face_index state))
     <> Some (dates state') ->
     write_succeeds h (write_calls h) = false ->
     files h' = files h) /\
    tick_frequency h' = 1.
Proof.
  intros Hr Hp Hsp.
  destruct state as [page subpage index d changed quick].
  cbn [current_page current_subpage dates face_index quick_cycle] in *.
  subst page subpage.
  change (repeat (EVENT_LIGHT_BUTTON_UP, inputs) 10)
    with ((EVENT_LIGHT_BUTTON_UP, inputs)
            :: repeat (EVENT_LIGHT_BUTTON_UP, inputs) 9).
  light_step (mk_state PROGRESS_PAGE_START PROGRESS_SUBPAGE_MONTH index d changed quick) h.
  light_step (mk_state PROGRESS_PAGE_START PROGRESS_SUBPAGE_DAY index d changed quick) h.
  light_step (mk_state PROGRESS_PAGE_START PROGRESS_SUBPAGE_HOUR index d changed quick) h.
  light_step (mk_state PROGRESS_PAGE_START PROGRESS_SUBPAGE_MINUTE index d changed quick) h.
  set (s5 := mk_state PROGRESS_PAGE_END PROGRESS_SUBPAGE_YEAR index d changed quick).
  light_step (_progress_face_validate_end_datetime s5) h.
  destruct (validate_spec s5 Hr) as (V1 & V2 & V3 & V4 & V5 & V6 & V7 & V8).
  destruct (_progress_face_validate_end_datetime s5)
    as [page6 subpage6 index6 d6 changed6 quick6].
  cbn [current_page current_subpage dates face_index quick_cycle] in *.
  subst page6 subpage6 index6 quick6.
  light_step (mk_state PROGRESS_PAGE_END PROGRESS_SUBPAGE_MONTH index d6 changed6 quick) h.
  light_step (mk_state PROGRESS_PAGE_END PROGRESS_SUBPAGE_DAY index d6 changed6 quick) h.
  light_step (mk_state PROGRESS_PAGE_END PROGRESS_SUBPAGE_HOUR index d6 changed6 quick) h.
  light_step (mk_state PROGRESS_PAGE_END PROGRESS_SUBPAGE_MINUTE index d6 changed6 quick) h.
  set (s10 := mk_state PROGRESS_PAGE_DISPLAY PROGRESS_SUBPAGE_YEAR index d6 changed6 quick).
  light_step (set_dates_changed s10 false)
    (movement_request_tick_frequency (snd (_progress_face_persist_dates s10 h)) 1).
  eexists _, _. split; [reflexivity |].
  split; [reflexivity |]. split; [reflexivity |].
  split; [exact V5 |]. split; [exact V6 |].
  split; [reflexivity |]. split; [reflexivity |].
  split; [exact (persist_store_holds_dates s10 h) |].
  split; [exact (persist_failed_write_keeps_files s10 h) | reflexivity].
Qed.

(** X7. If the store held the range already or the write succeeds, what
    [_progress_face_persist_dates] leaves in the store is what a later
    [_progress_face_load_dates] of the same instance reads: it reports the
    record found and loads exactly the persisted range, and a fresh setup
    of that instance opens on the display page with it.  If the write
    fails, a later load and a later setup find what they would have found
    before the call. *)
Theorem persist_then_load state h s0 watch_face_index instances now :
  face_index s0 = face_index state ->
  u8 instances = face_index state ->
  let filename := dates_filename (face_index state) in
  let h' := snd (_progress_face_persist_dates state h) in
  (filesystem_read_file h filename = Some (dates state)
   \/ write_succeeds h (write_calls h) = true ->
   _progress_face_load_dates s0 now h' = (set_dates s0 (dates state), true) /\
   fst (progress_face_setup watch_face_index None instances now h')
   = mk_state PROGRESS_PAGE_DISPLAY PROGRESS_SUBPAGE_YEAR (face_index state)
       (dates state) false false) /\
  (filesystem_read_file h filename <> Some (dates state) ->
   write_succeeds h (write_calls h) = false ->
   _progress_face_load_dates s0 now h' = _progress_face_load_dates s0 now h /\
   progress_face_setup watch_face_index None instances now h'
   = progress_face_setup watch_face_index None instances now h).
Proof.
  intros Hi Hu filename h'. split.
  - intros Hsaved.
    pose proof (persist_store_holds_dates state h Hsaved) as Hread.
    fold h' in Hread.
    pose proof (filesystem_read_exists _ _ _ Hread) as Hex.
    split.
    + unfold _progress_face_load_dates. rewrite Hi, Hex, Hread. reflexivity.
    + unfold progress_face_setup, _progress_face_load_dates.
      cbn [face_index]. rewrite Hu, Hex, Hread. reflexivity.
  - intros Hd Hko.
    pose proof (persist_failed_write_keeps_files state h Hd Hko) as Hfiles.
    fold h' in Hfiles.
    unfold progress_face_setup, _progress_face_load_dates,
      filesystem_file_exists, filesystem_read_file.
    rewrite Hfiles. split; reflexivity.
Qed.

(** X9. [progress_face_resign] leaves [dates_changed] clear and the rest
    of the state as it was.  With pending changes the store holds the
    range afterwards if it held it before or the write succeeds; if the
    write fails the files stay as they were and the flag is cleared all
    the same, so that a second resign does nothing: the failed save is not
    tried again.  Without pending changes neither the state nor the host
    changes, even if the stored record differs. *)
Theorem resign_saves_pending_changes state h :
  let filename := dates_filename (face_index state) in
  let state' := fst (progress_face_resign state h) in
  let h' := snd (progress_face_resign state h) in
  state' = set_dates_changed state false /\
  (dates_changed state = true ->
   filesystem_read_file h filename = Some (dates state)
   \/ write_succeeds h (write_calls h) = true ->
   filesystem_read_file h' filename = Some (dates state)) /\
  (dates_changed state = true ->
   filesystem_read_file h filename <> Some (dates state) ->
   write_succeeds h (write_calls h) = false ->
   files h' = files h /\ write_calls h' = S (write_calls h)) /\
  (dates_changed state = false -> state' = state /\ h' = h) /\
  progress_face_resign state' h' = (state', h').
Proof.
  cbn zeta. unfold progress_face_resign.
  destruct (dates_changed state) eqn:Hc.
  - split; [reflexivity |]. split; [| split; [| split; [discriminate | reflexivity]]].
    + intros _. apply persist_store_holds_dates.
    + intros _ Hd Hko.
      split; [exact (persist_failed_write_keeps_files state h Hd Hko) |].
      pose proof (persist_dates_spec state h) as P. cbn zeta in P.
      destruct (_progress_face_persist_dates state h) as [s1 h1].
      destruct P as (_ & _ & Pdiff). cbn [snd]. rewrite (Pdiff Hd). reflexivity.
  - destruct state as [p sp i d c q]. cbn in Hc. subst c.
    split; [reflexivity |]. split; [discriminate |]. split; [discriminate |].
    split; [intros _; split; reflexivity | reflexivity].
Qed.

(** X11. Entering quick cycle and leaving it again, by the release of the
    long press or by the idle timeout, gives the state back unchanged and
    leaves 4 Hz requested; in between quick cycle is on at 8 Hz. *)
Theorem quick_cycle_round_trip leave inputs1 inputs2 state h :
  current_page state <> PROGRESS_PAGE_DISPLAY ->
  quick_cycle state = false ->
  leave = EVENT_ALARM_LONG_UP \/ leave = EVENT_TIMEOUT ->
  progress_face_loop EVENT_ALARM_LONG_PRESS inputs1 state h
  = Some (set_quick_cycle state true, movement_request_tick_frequency h 8) /\
  run_events [(EVENT_ALARM_LONG_PRESS, inputs1); (leave, inputs2)] state h
  = Some (state, movement_request_tick_frequency h 4).
Proof.
  intros Hp Hq Hl.
  destruct state as [p sp i d c q]. cbn in Hp, Hq. subst q.
  destruct p; [contradiction | |]; destruct Hl as [-> | ->]; split; reflexivity.
Qed.

End Composition.

(** X8. Two instances with different indices use different file names,
    so persisting one instance never changes the record of another. *)
Theorem instances_keep_separate_files state h j :
  0 <= face_index state < 256 -> 0 <= j < 256 ->
  j <> face_index state ->
  dates_filename j <> dates_filename (face_index state) /\
  files (snd (_progress_face_persist_dates state h)) !! dates_filename j
  = files h !! dates_filename j.
Proof.
  intros Hi Hj Hne.
  assert (Hn : dates_filename j <> dates_filename (face_index state)).
  { intros Heq. apply Hne. apply dates_filename_inj; [lia | lia | exact Heq]. }
  split; [exact Hn | apply persist_other_files; exact Hn].
Qed.

(** X10. On a range within its bit-fields the validation is idempotent;
    it leaves an ordered range and its state untouched, and on a range
    whose end is before its start it sets the end to the start and raises
    [dates_changed]. *)
Theorem validation_settles state :
  dates_in_range (dates state) ->
  _progress_face_validate_end_datetime
    (_progress_face_validate_end_datetime state)
  = _progress_face_validate_end_datetime state /\
  (end_not_before_start (dates state) ->
   _progress_face_validate_end_datetime state = state) /\
  (~ end_not_before_start (dates state) ->
   _progress_face_validate_end_datetime state
   = mk_state (current_page state) (current_subpage state) (face_index state)
       (mk_dates (start_datetime (dates state)) (start_datetime (dates state)))
       true (quick_cycle state)).
Proof.
  intros Hr. destruct Hr as [Hs He].
  assert (Hcases :
    (end_not_before_start (dates state) /\
     _progress_face_validate_end_datetime state = state) \/
    (~ end_not_before_start (dates state) /\
     _progress_face_validate_end_datetime state
     = mk_state (current_page state) (current_subpage state) (face_index state)
         (mk_dates (start_datetime (dates state)) (start_datetime (dates state)))
         true (quick_cycle state))).
  { unfold _progress_face_validate_end_datetime, end_not_before_start.
    rewrite compare_linear, !minutes_linear by assumption.
    destruct (Z.ltb_spec (linearMinutes (end_datetime (dates state))
                            - linearMinutes (start_datetime (dates state))) 0);
      [right | left]; (split; [lia | reflexivity]). }
  destruct Hcases as [[Ho E] | [Hn E]].
  - rewrite E, E. repeat split; try reflexivity. intros Hc. contradiction.
  - split; [| split; [intros Hc; contradiction | intros _; exact E]].
    rewrite E. unfold _progress_face_validate_end_datetime.
    cbn [dates start_datetime end_datetime].
    rewrite compare_linear by assumption.
    rewrite Z.sub_diag. reflexivity.
Qed.

(* ===================================================================== *)
(** ** Field edits *)
(* ===================================================================== *)

Section FieldEdits.

Context `{Host}.










End FieldEdits.

(* ===================================================================== *)
(** ** More on the progress value *)
(* ===================================================================== *)

Section ProgressEnds.

Context `{Host}.

(** X17. For a range with start < end the value 1,000,000, and with it
    the literal full token, is shown exactly from the end on: before the
    end the value stays below 1,000,000. *)
Theorem full_exactly_from_end state now :
  dates_in_range (dates state) ->
  linearMinutes (start_datetime (dates state))
  < linearMinutes (end_datetime (dates state)) ->
  (_progress_face_update_display state now = 1000000 <->
   linearMinutes (end_datetime (dates state))
   <= linearMinutes (current_dt_of now)).
Proof.
  intros Hr Hlt. rewrite (update_display_reference state now Hr).
  unfold computeProgressFixedPoint.
  set (s := linearMinutes (start_datetime (dates state))) in *.
  set (e := linearMinutes (end_datetime (dates state))) in *.
  set (c := linearMinutes (current_dt_of now)).
  destruct (Z.leb_spec c s); [lia |].
  destruct (Z.geb_spec c e); [lia |].
  assert ((c - s) * 1000000 / (e - s) < 1000000)
    by (apply Z.div_lt_upper_bound; nia).
  lia.
Qed.

(** X18. For a stored range whose end is not after its start, the value
    is never in between: 0 up to and at the start, 1,000,000 after it. *)
Theorem inverted_range_progress state now :
  dates_in_range (dates state) ->
  linearMinutes (end_datetime (dates state))
  <= linearMinutes (start_datetime (dates state)) ->
  _progress_face_update_display state now
  = if linearMinutes (current_dt_of now)
       <=? linearMinutes (start_datetime (dates state))
    then 0 else 1000000.
Proof.
  intros Hr Hle. rewrite (update_display_reference state now Hr).
  unfold computeProgressFixedPoint.
  destruct (Z.leb_spec (linearMinutes (current_dt_of now))
              (linearMinutes (start_datetime (dates state)))); [reflexivity |].
  destruct (Z.geb_spec (linearMinutes (current_dt_of now))
              (linearMinutes (end_datetime (dates state)))); [reflexivity | lia].
Qed.

End ProgressEnds.

(** X19. For every value of the bit-fields the minute count is computed
    without overflow: the products and the result of the [int] day number
    lie within 32 bits, no [uint64_t] operation wraps, the minute count
    lies below 2^33 and the difference of two of them, taken as
    [int64_t], is exact and lies strictly between -2^33 and 2^33. *)
Theorem minutes_never_overflow a b :
  datetime_in_range a -> datetime_in_range b ->
  let shift := (bit_month a - 14) ÷ 12 in
  in_int (1461 * (bit_year a + 4800 + shift)) /\
  in_int (367 * (bit_month a - 2 - 12 * shift)) /\
  in_int (3 * ((bit_year a + 4900 + shift) ÷ 100)) /\
  in_int (julian_day_int a) /\
  _progress_datetime_to_minutes a
  = julian_day_int a * 1440 + bit_hour a * 60 + bit_minute a /\
  0 <= _progress_datetime_to_minutes a < 2 ^ 33 /\
  _progress_datetime_compare a b
  = _progress_datetime_to_minutes b - _progress_datetime_to_minutes a /\
  - 2 ^ 33 < _progress_datetime_compare a b < 2 ^ 33.
Proof.
  intros Ha Hb shift.
  destruct (julian_day_int_in_int a Ha) as (I1 & I2 & I3 & I4).
  pose proof (linearMinutes_bounds a Ha) as Ba.
  pose proof (linearMinutes_bounds b Hb) as Bb.
  rewrite compare_linear, !minutes_linear by assumption.
  change (2 ^ 33) with 8589934592.
  split; [exact I1 |]. split; [exact I2 |]. split; [exact I3 |].
  split; [exact I4 |]. split; [reflexivity |].
  split; [lia |]. split; [reflexivity | lia].
Qed.

(* ===================================================================== *)
(** ** What the loop keeps *)
(* ===================================================================== *)

Section LoopInvariants.

Context `{Host}.

Lemma increment_current_flags state now state' :
  _progress_face_increment_current state now = Some state' ->
  dates_changed state' = true /\ current_page state' = current_page state /\
  current_subpage state' = current_subpage state /\
  face_index state' = face_index state.
Proof.
  intros Hs. split; [exact (increment_sets_dates_changed state now state' Hs) |].
  split; [| split; [| exact (increment_current_face_index state now state' Hs)]];
    revert Hs; rewrite increment_current_unfold;
    (destruct (increment_field _ _ _) as [dt |]; [| discriminate]); cbn zeta;
    destruct (current_page state) eqn:Hp; intros [= <-]; try reflexivity;
    try exact Hp; unfold _progress_face_validate_end_datetime;
    destruct (_ <? 0); first [exact Hp | reflexivity].
Qed.

(** X20. The flag follows edits and saves.  Every event that makes the
    loop edit a field leaves [dates_changed] set; an event that changes
    the dates in any way, by an edit or by the correction of the end,
    leaves it set; and a set flag is cleared only by the light button that
    completes the end page, the one event that calls
    [_progress_face_persist_dates]. *)
Theorem dates_changed_follows_edits event inputs state h state' h' :
  progress_face_loop event inputs state h = Some (state', h') ->
  (edits_field event inputs state = true -> dates_changed state' = true) /\
  (dates state' = dates state \/ dates_changed state' = true) /\
  (dates_changed state = true -> dates_changed state' = false ->
   event = EVENT_LIGHT_BUTTON_UP /\
   current_page state = PROGRESS_PAGE_END /\
   current_subpage state = PROGRESS_SUBPAGE_MINUTE /\
   h' = movement_request_tick_frequency
          (snd (_progress_face_persist_dates
                  (set_page state PROGRESS_PAGE_DISPLAY PROGRESS_SUBPAGE_YEAR) h))
          1).
Proof.
  assert (Hedit : forall s s' now,
    _progress_face_increment_current s now = Some s' ->
    (edits_field event inputs state = true -> dates_changed s' = true) /\
    (dates s' = dates state \/ dates_changed s' = true) /\
    (dates_changed state = true -> dates_changed s' = false ->
     event = EVENT_LIGHT_BUTTON_UP /\
     current_page state = PROGRESS_PAGE_END /\
     current_subpage state = PROGRESS_SUBPAGE_MINUTE /\
     h' = movement_request_tick_frequency
            (snd (_progress_face_persist_dates
                    (set_page state PROGRESS_PAGE_DISPLAY PROGRESS_SUBPAGE_YEAR) h))
            1)).
  { intros s s' now Hs.
    pose proof (increment_sets_dates_changed s now s' Hs) as Hc.
    split; [intros _; exact Hc |]. split; [right; exact Hc |].
    intros _ Hf. rewrite Hc in Hf. discriminate. }
  assert (Hkeep : forall s,
    dates s = dates state -> dates_changed s = dates_changed state ->
    edits_field event inputs state = false ->
    (edits_field event inputs state = true -> dates_changed s = true) /\
    (dates s = dates state \/ dates_changed s = true) /\
    (dates_changed state = true -> dates_changed s = false ->
     event = EVENT_LIGHT_BUTTON_UP /\
     current_page state = PROGRESS_PAGE_END /\
     current_subpage state = PROGRESS_SUBPAGE_MINUTE /\
     h' = movement_request_tick_frequency
            (snd (_progress_face_persist_dates
                    (set_page state PROGRESS_PAGE_DISPLAY PROGRESS_SUBPAGE_YEAR) h))
            1)).
  { intros s Hd Hc He. rewrite He, Hc.
    split; [discriminate |]. split; [left; exact Hd |].
    intros Ht Hf. rewrite Ht in Hf. discriminate. }
  assert (Habort : forall hh,
    dates (fst (_progress_face_abort_quick_cycle state hh)) = dates state /\
    dates_changed (fst (_progress_face_abort_quick_cycle state hh))
    = dates_changed state).
  { intros hh. unfold _progress_face_abort_quick_cycle.
    destruct (quick_cycle state); split; reflexivity. }
  destruct event; unfold progress_face_loop, edits_field in *.
  - intros Heq; destruct (some_pair_inv _ _ _ _ Heq) as [-> _].
    apply Hkeep; reflexivity.
  - destruct (quick_cycle state) eqn:Hq;
      [| intros Heq; destruct (some_pair_inv _ _ _ _ Heq) as [-> _];
         apply Hkeep; reflexivity].
    destruct (HAL_GPIO_BTN_ALARM_read inputs).
    + destruct (_progress_face_increment_current state _) as [s |] eqn:Hs;
        [| discriminate]. cbn [mbind option_bind].
      intros Heq; destruct (some_pair_inv _ _ _ _ Heq) as [-> _].
      exact (Hedit _ _ _ Hs).
    + destruct (Habort h) as [A1 A2].
      destruct (_progress_face_abort_quick_cycle state h) as [s hh].
      intros Heq; destruct (some_pair_inv _ _ _ _ Heq) as [-> _].
      apply Hkeep; assumption || reflexivity.
  - destruct (quick_cycle state) eqn:Hq;
      [| intros Heq; destruct (some_pair_inv _ _ _ _ Heq) as [-> _];
         apply Hkeep; reflexivity].
    destruct (HAL_GPIO_BTN_ALARM_read inputs).
    + destruct (_progress_face_increment_current state _) as [s |] eqn:Hs;
        [| discriminate]. cbn [mbind option_bind].
      intros Heq; destruct (some_pair_inv _ _ _ _ Heq) as [-> _].
      exact (Hedit _ _ _ Hs).
    + destruct (Habort h) as [A1 A2].
      destruct (_progress_face_abort_quick_cycle state h) as [s hh].
      intros Heq; destruct (some_pair_inv _ _ _ _ Heq) as [-> _].
      apply Hkeep; assumption || reflexivity.
  - intros Heq; destruct (some_pair_inv _ _ _ _ Heq) as [-> _].
    apply Hkeep; reflexivity.
  - fold (progress_face_loop EVENT_LIGHT_BUTTON_UP inputs state h).
    rewrite light_button_up_unfold.
    destruct (current_page state) eqn:Hp.
    + intros Heq; destruct (some_pair_inv _ _ _ _ Heq) as [-> _].
      apply Hkeep; reflexivity.
    + destruct (current_subpage state) eqn:Hsp;
        intros Heq; destruct (some_pair_inv _ _ _ _ Heq) as [-> _];
        try (apply Hkeep; reflexivity).
      split; [discriminate |].
      unfold _progress_face_validate_end_datetime.
      destruct (_ <? 0); cbn [dates dates_changed set_page].
      * split; [right; reflexivity | intros _ Hf; discriminate].
      * split; [left; reflexivity |]. intros Ht Hf. rewrite Ht in Hf. discriminate.
    + destruct (current_subpage state) eqn:Hsp;
        intros Heq; destruct (some_pair_inv _ _ _ _ Heq) as [-> ->];
        try (apply Hkeep; reflexivity).
      split; [discriminate |]. split; [left; reflexivity |].
      intros _ _. repeat split; reflexivity.
  - destruct (current_page state) eqn:Hp.
    + intros Heq; destruct (some_pair_inv _ _ _ _ Heq) as [-> _].
      apply Hkeep; reflexivity.
    + destruct (_progress_face_abort_quick_cycle state h) as [s hh].
      destruct (_progress_face_increment_current s _) as [s' |] eqn:Hs;
        [| discriminate]. cbn [mbind option_bind].
      intros Heq; destruct (some_pair_inv _ _ _ _ Heq) as [-> _].
      exact (Hedit _ _ _ Hs).
    + destruct (_progress_face_abort_quick_cycle state h) as [s hh].
      destruct (_progress_face_increment_current s _) as [s' |] eqn:Hs;
        [| discriminate]. cbn [mbind option_bind].
      intros Heq; destruct (some_pair_inv _ _ _ _ Heq) as [-> _].
      exact (Hedit _ _ _ Hs).
  - destruct (current_page state);
      intros Heq; destruct (some_pair_inv _ _ _ _ Heq) as [-> _];
      apply Hkeep; reflexivity.
  - destruct (Habort h) as [A1 A2].
    destruct (_progress_face_abort_quick_cycle state h) as [s hh].
    intros Heq; destruct (some_pair_inv _ _ _ _ Heq) as [-> _].
    apply Hkeep; assumption || reflexivity.
  - destruct (Habort h) as [A1 A2].
    destruct (_progress_face_abort_quick_cycle state h) as [s hh].
    intros Heq; destruct (some_pair_inv _ _ _ _ Heq) as [-> _].
    apply Hkeep; assumption || reflexivity.
  - intros Heq; destruct (some_pair_inv _ _ _ _ Heq) as [-> _].
    apply Hkeep; reflexivity.
Qed.

(** X21. The page only moves forward: an event changes the page only as
    the long press on the display page (to the start page) or as the light
    button on the minute (start page to end page, end page to display
    page), and the new page always begins at the year. *)
Theorem page_moves_forward_only event inputs state h state' h' :
  progress_face_loop event inputs state h = Some (state', h') ->
  current_page state' <> current_page state ->
  current_subpage state' = PROGRESS_SUBPAGE_YEAR /\
  ((event = EVENT_ALARM_LONG_PRESS /\
    current_page state = PROGRESS_PAGE_DISPLAY /\
    current_page state' = PROGRESS_PAGE_START) \/
   (event = EVENT_LIGHT_BUTTON_UP /\
    current_subpage state = PROGRESS_SUBPAGE_MINUTE /\
    ((current_page state = PROGRESS_PAGE_START /\
      current_page state' = PROGRESS_PAGE_END) \/
     (current_page state = PROGRESS_PAGE_END /\
      current_page state' = PROGRESS_PAGE_DISPLAY)))).
Proof.
  assert (Hedit : forall s s' now,
    current_page s = current_page state ->
    _progress_face_increment_current s now = Some s' ->
    current_page s' = current_page state).
  { intros s s' now Hp Hs.
    destruct (increment_current_flags s now s' Hs) as (_ & E & _). congruence. }
  assert (Habort :
    current_page (fst (_progress_face_abort_quick_cycle state h))
    = current_page state).
  { unfold _progress_face_abort_quick_cycle. destruct (quick_cycle state); reflexivity. }
  destruct event; unfold progress_face_loop.
  - intros Heq; destruct (some_pair_inv _ _ _ _ Heq) as [-> ->]. contradiction.
  - destruct (quick_cycle state) eqn:Hq;
      [| intros Heq; destruct (some_pair_inv _ _ _ _ Heq) as [-> ->]; contradiction].
    destruct (HAL_GPIO_BTN_ALARM_read inputs).
    + destruct (_progress_face_increment_current state _) as [s |] eqn:Hs;
        [| discriminate]. cbn [mbind option_bind].
      intros Heq; destruct (some_pair_inv _ _ _ _ Heq) as [-> ->].
      intros Hc. exfalso. apply Hc. eapply Hedit; [reflexivity | exact Hs].
    + destruct (_progress_face_abort_quick_cycle state h) as [s hh].
      intros Heq; destruct (some_pair_inv _ _ _ _ Heq) as [-> ->]. contradiction.
  - destruct (quick_cycle state) eqn:Hq;
      [| intros Heq; destruct (some_pair_inv _ _ _ _ Heq) as [-> ->]; contradiction].
    destruct (HAL_GPIO_BTN_ALARM_read inputs).
    + destruct (_progress_face_increment_current state _) as [s |] eqn:Hs;
        [| discriminate]. cbn [mbind option_bind].
      intros Heq; destruct (some_pair_inv _ _ _ _ Heq) as [-> ->].
      intros Hc. exfalso. apply Hc. eapply Hedit; [reflexivity | exact Hs].
    + destruct (_progress_face_abort_quick_cycle state h) as [s hh].
      intros Heq; destruct (some_pair_inv _ _ _ _ Heq) as [-> ->]. contradiction.
  - intros Heq; destruct (some_pair_inv _ _ _ _ Heq) as [-> ->]. contradiction.
  - fold (progress_face_loop EVENT_LIGHT_BUTTON_UP inputs state h).
    rewrite light_button_up_unfold.
    destruct (current_page state) eqn:Hp.
    + intros Heq; destruct (some_pair_inv _ _ _ _ Heq) as [-> ->]. congruence.
    + destruct (current_subpage state) eqn:Hsp;
        intros Heq; destruct (some_pair_inv _ _ _ _ Heq) as [-> ->];
        try (cbn [set_page current_page]; congruence).
      unfold _progress_face_validate_end_datetime.
      destruct (_ <? 0); cbn [set_page current_page current_subpage]; intros _;
        (split; [reflexivity |]); right; auto.
    + destruct (current_subpage state) eqn:Hsp;
        intros Heq; destruct (some_pair_inv _ _ _ _ Heq) as [-> ->];
        try (cbn [set_page current_page]; congruence).
      intros _. split; [reflexivity |]. right; auto.
  - destruct (current_page state) eqn:Hp.
    + intros Heq; destruct (some_pair_inv _ _ _ _ Heq) as [-> ->]. congruence.
    + destruct (_progress_face_abort_quick_cycle state h) as [s hh].
      cbn [fst] in Habort.
      destruct (_progress_face_increment_current s _) as [s' |] eqn:Hs;
        [| discriminate]. cbn [mbind option_bind].
      intros Heq; destruct (some_pair_inv _ _ _ _ Heq) as [-> ->].
      intros Hc. exfalso. apply Hc. exact (Hedit s s' _ Habort Hs).
    + destruct (_progress_face_abort_quick_cycle state h) as [s hh].
      cbn [fst] in Habort.
      destruct (_progress_face_increment_current s _) as [s' |] eqn:Hs;
        [| discriminate]. cbn [mbind option_bind].
      intros Heq; destruct (some_pair_inv _ _ _ _ Heq) as [-> ->].
      intros Hc. exfalso. apply Hc. exact (Hedit s s' _ Habort Hs).
  - destruct (current_page state) eqn:Hp;
      intros Heq; destruct (some_pair_inv _ _ _ _ Heq) as [-> ->];
      cbn [set_page set_quick_cycle current_page current_subpage];
      try congruence.
    intros _. split; [reflexivity |]. left; auto.
  - destruct (_progress_face_abort_quick_cycle state h) as [s hh].
    cbn [fst] in Habort.
    intros Heq; destruct (some_pair_inv _ _ _ _ Heq) as [-> ->]. congruence.
  - destruct (_progress_face_abort_quick_cycle state h) as [s hh].
    cbn [fst] in Habort.
    intros Heq; destruct (some_pair_inv _ _ _ _ Heq) as [-> ->]. congruence.
  - intros Heq; destruct (some_pair_inv _ _ _ _ Heq) as [-> ->]. contradiction.
Qed.

(** X22. When no record can be read, the range loaded for a current year
    that fits the year field is a valid calendar range that spans exactly
    that year: it starts on January 1 at 00:00 and ends one minute before
    the next year, 365 or 366 days of minutes less one. *)
Theorem default_range_spans_year state now h :
  let current_year := unit_year now + WATCH_RTC_REFERENCE_YEAR in
  0 <= current_year < 4096 ->
  filesystem_read_file h (dates_filename (face_index state)) = None ->
  let loaded := dates (fst (_progress_face_load_dates state now h)) in
  snd (_progress_face_load_dates state now h) = false /\
  valid_calendar (start_datetime loaded) /\
  valid_calendar (end_datetime loaded) /\
  _progress_datetime_compare (start_datetime loaded) (end_datetime loaded)
  = (365 + leap_day current_year) * 1440 - 1.
Proof.
  intros cy Hy Hread loaded.
  assert (Hcy : current_year_of now = cy).
  { unfold current_year_of, u16, cy. apply Z.mod_small.
    change (2 ^ 16) with 65536. fold cy. lia. }
  assert (Hload : _progress_face_load_dates state now h
                  = (set_dates state (mk_dates (mk_datetime cy 1 1 0 0)
                                               (mk_datetime cy 12 31 23 59)),
                     false)).
  { unfold _progress_face_load_dates. rewrite Hread.
    destruct (filesystem_file_exists h _); rewrite Hcy;
      unfold set_minute, set_hour, set_day, set_month, set_year;
      cbn [bit_year bit_month bit_day bit_hour bit_minute];
      rewrite !(bits_small 12 cy) by (change (2 ^ 12) with 4096; lia);
      reflexivity. }
  unfold loaded. rewrite Hload. cbn [fst snd set_dates dates start_datetime end_datetime].
  pose proof (leap_day_range cy) as Hl.
  assert (V1 : valid_calendar (mk_datetime cy 1 1 0 0))
    by (unfold valid_calendar; cbn [bit_year bit_month bit_day bit_hour bit_minute
                                    gregorian_days_in_month]; lia).
  assert (V2 : valid_calendar (mk_datetime cy 12 31 23 59))
    by (unfold valid_calendar; cbn [bit_year bit_month bit_day bit_hour bit_minute
                                    gregorian_days_in_month]; lia).
  split; [reflexivity |]. split; [exact V1 |]. split; [exact V2 |].
  rewrite compare_linear by (apply valid_calendar_in_range; assumption).
  unfold linearMinutes. rewrite !julian_day_closed by lia.
  cbn [bit_hour bit_minute days_before_month]. lia.
Qed.

End LoopInvariants.

(* ===================================================================== *)
(** ** The properties on sample inputs *)
(* ===================================================================== *)

Lemma display_page_is_inert_witness :
  current_page scenario_state = PROGRESS_PAGE_DISPLAY /\
  quick_cycle scenario_state = false /\
  progress_face_loop (H := reference_host) EVENT_ALARM_BUTTON_UP button_held
    scenario_state stored_host
  = Some (scenario_state, stored_host).
Proof.
  split; [reflexivity |]. split; [reflexivity |].
  exact (display_page_is_inert (H := reference_host) EVENT_ALARM_BUTTON_UP
           button_held scenario_state stored_host eq_refl eq_refl).
Defined.

Lemma loop_writes_only_on_completion_witness :
  progress_face_loop (H := reference_host) EVENT_ALARM_LONG_PRESS button_held
    scenario_state stored_host
  = Some (first_run_state, movement_request_tick_frequency stored_host 4) /\
  face_index first_run_state = face_index scenario_state.
Proof.
  assert (Hrun : progress_face_loop (H := reference_host) EVENT_ALARM_LONG_PRESS
                   button_held scenario_state stored_host
                 = Some (first_run_state,
                         movement_request_tick_frequency stored_host 4))
    by reflexivity.
  split; [exact Hrun |].
  exact (proj1 (loop_writes_only_on_completion (H := reference_host) _ _ _ _ _ _
                  Hrun)).
Defined.

Lemma full_edit_cycle_reaches_display_witness :
  dates_in_range (dates first_run_state) /\
  exists state' h',
    run_events (H := reference_host)
      (repeat (EVENT_LIGHT_BUTTON_UP, button_held) 10) first_run_state
      empty_host_state = Some (state', h') /\
    current_page state' = PROGRESS_PAGE_DISPLAY.
Proof.
  assert (Hr : dates_in_range (dates first_run_state)) by by_computation.
  split; [exact Hr |].
  destruct (full_edit_cycle_reaches_display (H := reference_host) button_held
              first_run_state empty_host_state Hr eq_refl eq_refl)
    as (state' & h' & Hrun & Hpage & _).
  exists state', h'. split; [exact Hrun | exact Hpage].
Defined.

Lemma persist_then_load_witness :
  face_index zeroed_state = face_index scenario_state /\
  u8 256 = face_index scenario_state /\
  write_succeeds empty_host_state (write_calls empty_host_state) = true /\
  _progress_face_load_dates (H := reference_host) zeroed_state scenario_now
    (snd (_progress_face_persist_dates scenario_state empty_host_state))
  = (set_dates zeroed_state scenario_range, true) /\
  _progress_face_load_dates (H := reference_host) zeroed_state scenario_now
    (snd (_progress_face_persist_dates scenario_state failing_host_state))
  = _progress_face_load_dates (H := reference_host) zeroed_state scenario_now
      failing_host_state.
Proof.
  split; [reflexivity |]. split; [reflexivity |]. split; [reflexivity |].
  split.
  - exact (proj1 (proj1 (persist_then_load (H := reference_host) scenario_state
                           empty_host_state zeroed_state 0 256 scenario_now
                           eq_refl eq_refl) (or_intror eq_refl))).
  - refine (proj1 (proj2 (persist_then_load (H := reference_host) scenario_state
                            failing_host_state zeroed_state 0 256 scenario_now
                            eq_refl eq_refl) _ eq_refl)).
    discriminate.
Defined.

Lemma instances_keep_separate_files_witness :
  0 <= face_index scenario_state < 256 /\ 0 <= 1 < 256 /\
  1 <> face_index scenario_state /\
  dates_filename 1 <> dates_filename (face_index scenario_state).
Proof.
  assert (H0 : 0 <= face_index scenario_state < 256) by by_computation.
  assert (H1 : 0 <= 1 < 256) by lia.
  assert (Hne : 1 <> face_index scenario_state) by discriminate.
  split; [exact H0 |]. split; [exact H1 |]. split; [exact Hne |].
  exact (proj1 (instances_keep_separate_files scenario_state empty_host_state 1
                  H0 H1 Hne)).
Defined.

Lemma validation_settles_witness :
  dates_in_range (dates scenario_state) /\
  _progress_face_validate_end_datetime
    (_progress_face_validate_end_datetime scenario_state)
  = _progress_face_validate_end_datetime scenario_state.
Proof.
  assert (Hr : dates_in_range (dates scenario_state)) by by_computation.
  split; [exact Hr |].
  exact (proj1 (validation_settles scenario_state Hr)).
Defined.

Lemma quick_cycle_round_trip_witness :
  current_page first_run_state <> PROGRESS_PAGE_DISPLAY /\
  quick_cycle first_run_state = false /\
  run_events (H := reference_host)
    [(EVENT_ALARM_LONG_PRESS, button_held); (EVENT_TIMEOUT, button_held)]
    first_run_state empty_host_state
  = Some (first_run_state, movement_request_tick_frequency empty_host_state 4).
Proof.
  assert (Hp : current_page first_run_state <> PROGRESS_PAGE_DISPLAY)
    by discriminate.
  split; [exact Hp |]. split; [reflexivity |].
  exact (proj2 (quick_cycle_round_trip (H := reference_host) EVENT_TIMEOUT
                  button_held button_held first_run_state empty_host_state
                  Hp eq_refl (or_intror eq_refl))).
Defined.






Lemma full_exactly_from_end_witness :
  dates_in_range (dates scenario_state) /\
  linearMinutes (start_datetime (dates scenario_state))
  < linearMinutes (end_datetime (dates scenario_state)) /\
  (_progress_face_update_display (H := reference_host) scenario_state scenario_now
   = 1000000 <->
   linearMinutes (end_datetime (dates scenario_state))
   <= linearMinutes (current_dt_of (H := reference_host) scenario_now)).
Proof.
  assert (Hr : dates_in_range (dates scenario_state)) by by_computation.
  split; [exact Hr |]. split; [reflexivity |].
  exact (full_exactly_from_end (H := reference_host) scenario_state scenario_now
           Hr eq_refl).
Defined.

Lemma inverted_range_progress_witness :
  dates_in_range (dates instant_state) /\
  linearMinutes (end_datetime (dates instant_state))
  <= linearMinutes (start_datetime (dates instant_state)) /\
  _progress_face_update_display (H := reference_host) instant_state scenario_now
  = 0.
Proof.
  assert (Hr : dates_in_range (dates instant_state)) by by_computation.
  assert (Hle : linearMinutes (end_datetime (dates instant_state))
                <= linearMinutes (start_datetime (dates instant_state)))
    by (vm_compute; congruence).
  split; [exact Hr |]. split; [exact Hle |].
  exact (inverted_range_progress (H := reference_host) instant_state scenario_now
           Hr Hle).
Defined.

Lemma minutes_never_overflow_witness :
  datetime_in_range (mk_datetime 4095 15 31 31 63) /\
  datetime_in_range (mk_datetime 0 0 0 0 0) /\
  in_int (julian_day_int (mk_datetime 4095 15 31 31 63)).
Proof.
  assert (Ha : datetime_in_range (mk_datetime 4095 15 31 31 63)) by by_computation.
  assert (Hb : datetime_in_range (mk_datetime 0 0 0 0 0)) by by_computation.
  split; [exact Ha |]. split; [exact Hb |].
  exact (proj1 (proj2 (proj2 (proj2 (minutes_never_overflow _ _ Ha Hb))))).
Defined.

Lemma dates_changed_follows_edits_witness :
  progress_face_loop (H := reference_host) EVENT_ALARM_BUTTON_UP button_held
    first_run_state empty_host_state
  = Some (mk_state PROGRESS_PAGE_START PROGRESS_SUBPAGE_YEAR 0
            (mk_dates (mk_datetime 2026 1 1 0 0) (mk_datetime 2025 12 31 23 59))
            true false,
          empty_host_state) /\
  edits_field EVENT_ALARM_BUTTON_UP button_held first_run_state = true /\
  dates_changed
    (mk_state PROGRESS_PAGE_START PROGRESS_SUBPAGE_YEAR 0
       (mk_dates (mk_datetime 2026 1 1 0 0) (mk_datetime 2025 12 31 23 59))
       true false) = true.
Proof.
  assert (Hrun : progress_face_loop (H := reference_host) EVENT_ALARM_BUTTON_UP
                   button_held first_run_state empty_host_state
                 = Some (mk_state PROGRESS_PAGE_START PROGRESS_SUBPAGE_YEAR 0
                           (mk_dates (mk_datetime 2026 1 1 0 0)
                                     (mk_datetime 2025 12 31 23 59))
                           true false,
                         empty_host_state))
    by (vm_compute; reflexivity).
  split; [exact Hrun |]. split; [reflexivity |].
  exact (proj1 (dates_changed_follows_edits (H := reference_host) _ _ _ _ _ _
                  Hrun) eq_refl).
Defined.

Lemma page_moves_forward_only_witness :
  progress_face_loop (H := reference_host) EVENT_ALARM_LONG_PRESS button_held
    scenario_state empty_host_state
  = Some (first_run_state, movement_request_tick_frequency empty_host_state 4) /\
  current_page first_run_state <> current_page scenario_state /\
  current_subpage first_run_state = PROGRESS_SUBPAGE_YEAR.
Proof.
  assert (Hrun : progress_face_loop (H := reference_host) EVENT_ALARM_LONG_PRESS
                   button_held scenario_state empty_host_state
                 = Some (first_run_state,
                         movement_request_tick_frequency empty_host_state 4))
    by reflexivity.
  assert (Hne : current_page first_run_state <> current_page scenario_state)
    by discriminate.
  split; [exact Hrun |]. split; [exact Hne |].
  exact (proj1 (page_moves_forward_only (H := reference_host) _ _ _ _ _ _
                  Hrun Hne)).
Defined.

Lemma default_range_spans_year_witness :
  0 <= unit_year scenario_now + 2020 < 4096 /\
  filesystem_read_file empty_host_state
    (dates_filename (face_index scenario_state)) = None /\
  _progress_datetime_compare (mk_datetime 2025 1 1 0 0)
    (mk_datetime 2025 12 31 23 59) = 525599.
Proof.
  assert (Hy : 0 <= unit_year scenario_now + 2020 < 4096) by by_computation.
  split; [exact Hy |]. split; [reflexivity |].
  exact (proj2 (proj2 (proj2 (default_range_spans_year (H := reference_host)
                                scenario_state scenario_now empty_host_state
                                Hy eq_refl)))).
Defined.
